(** * gibbs: phase-stability notebook wrappers and the stability engine

    The notebook [nichita-stability-cases-paper.ipynb] defines two adapter
    classes, [NichitaPR] and [NichitaSRK], which put a cubic equation of
    state of the [gibbs] package behind the protocol that [stability_test]
    expects ([fugacity], [calculate_Z], [number_of_components]).  This
    development embeds those classes over an explicit object store and
    states what they guarantee; the engine behind them is described by the
    design document and is embedded from it where the notebook only calls
    it. *)

From Stdlib Require Import QArith Qabs Lqa.
From Stdlib Require Import Reals Qreals Psatz.
From stdpp Require Import base list option.

Open Scope Q_scope.

(** ** Values and the object store *)

(** Python floats are carried as rationals: the adapters only pass them
    along, and the decision logic only compares and adds them.  An array
    passed as an argument or returned by a method is carried by its
    contents; the objects that are shared between the adapter and the EOS
    instances live in the store below. *)
Definition ndarray := list Q.

(** Objects are referred to by their address in the store. *)
Definition loc := nat.

Inductive exn :=
| AttributeError
| InvalidCompositionError
| NoPhysicalRootError
| OtherError (code : nat).

(** The objects the notebook creates.  [Mixture(z, Tcs, Pcs, omegas)] and
    the [bip] array are built once per case; the adapter and every EOS
    instance hold references to them, so all of them see the same
    mixture and the same interaction matrix.  The classes [Mixture],
    [PengRobinson78] and [SoaveRedlichKwong] come from the package; their
    objects carry the fields the notebook passes to their constructors. *)
Inductive obj :=
| OMixture (z Tc Pc omega : ndarray)
| OMatrix (rows : list ndarray)
| ONichitaPR (mixture bip : loc)
| ONichitaSRK (mixture bip : loc)
| OPengRobinson78 (mixture bip : loc)
| OSoaveRedlichKwong (mixture bip : loc).

Definition store := list obj.

(** ** Computations: state and exceptions *)

Inductive outcome (A : Type) :=
| Return (a : A)
| Raise (e : exn).
Arguments Return {A} a.
Arguments Raise {A} e.

(** A raised exception keeps the store reached so far, as in Python. *)
Definition M (A : Type) : Type := store -> outcome A * store.

Definition ret {A} (a : A) : M A := fun s => (Return a, s).

Definition raise {A} (e : exn) : M A := fun s => (Raise e, s).

Definition bind {A B} (c : M A) (k : A -> M B) : M B :=
  fun s =>
    match c s with
    | (Return a, s') => k a s'
    | (Raise e, s') => (Raise e, s')
    end.

Notation "x <- c ;; k" := (bind c (fun x => k))
  (at level 100, c at next level, right associativity).

(** Attribute access on an object reference. *)
Definition load (l : loc) : M obj :=
  fun s =>
    match s !! l with
    | Some o => (Return o, s)
    | None => (Raise AttributeError, s)
    end.

(** Object construction: the new object gets the next free address. *)
Definition alloc (o : obj) : M loc :=
  fun s => (Return (length s), s ++ [o]).

(** ** The equation-of-state interface

    [PengRobinson78] and [SoaveRedlichKwong] are imported from
    [gibbs.models.ceos]; the adapters use two of their methods, which are
    taken as parameters here.  Both are called on an EOS instance (a
    reference into the store) and may read and write the store. *)
Class CubicEquationOfState := {
  calculate_Z_minimal_energy : loc -> Q -> Q -> ndarray -> M Q;
  calculate_fugacity : loc -> Q -> Q -> ndarray -> Q -> M ndarray
}.

(** Modelled from the spec: the constructors of the two EOS classes of
    [gibbs.models.ceos], called with keyword arguments [mixture=] and
    [bip=]: an instance is a configuration holding a reference to the
    mixture and to the interaction matrix, tagged with its variant. *)
Definition PengRobinson78 (mixture bip : loc) : M loc :=
  alloc (OPengRobinson78 mixture bip).

Definition SoaveRedlichKwong (mixture bip : loc) : M loc :=
  alloc (OSoaveRedlichKwong mixture bip).

(** ** The adapter classes of the notebook *)

Module NichitaPR.
Section Methods.
Context `{CubicEquationOfState}.

(** [@property model] *)
Definition model (self : loc) : M loc :=
  o <- load self ;;
  match o with
  | ONichitaPR mixture bip => PengRobinson78 mixture bip
  | _ => raise AttributeError
  end.

(** [@property number_of_components]: [len(self.mixture.z)] *)
Definition number_of_components (self : loc) : M nat :=
  o <- load self ;;
  match o with
  | ONichitaPR mixture _ =>
      m <- load mixture ;;
      match m with
      | OMixture z _ _ _ => ret (length z)
      | _ => raise AttributeError
      end
  | _ => raise AttributeError
  end.

Definition calculate_Z (self : loc) (P T : Q) (z : ndarray) : M Q :=
  m <- model self ;;
  Z_factor <- calculate_Z_minimal_energy m P T z ;;
  ret Z_factor.

Definition fugacity (self : loc) (P T : Q) (z : ndarray) : M ndarray :=
  Z_factor <- calculate_Z self P T z ;;
  m <- model self ;;
  calculate_fugacity m P T z Z_factor.
End Methods.
End NichitaPR.

Module NichitaSRK.
Section Methods.
Context `{CubicEquationOfState}.

(** [@property model] *)
Definition model (self : loc) : M loc :=
  o <- load self ;;
  match o with
  | ONichitaSRK mixture bip => SoaveRedlichKwong mixture bip
  | _ => raise AttributeError
  end.

(** [@property number_of_components]: [len(self.mixture.z)] *)
Definition number_of_components (self : loc) : M nat :=
  o <- load self ;;
  match o with
  | ONichitaSRK mixture _ =>
      m <- load mixture ;;
      match m with
      | OMixture z _ _ _ => ret (length z)
      | _ => raise AttributeError
      end
  | _ => raise AttributeError
  end.

Definition calculate_Z (self : loc) (P T : Q) (z : ndarray) : M Q :=
  m <- model self ;;
  Z_factor <- calculate_Z_minimal_energy m P T z ;;
  ret Z_factor.

Definition fugacity (self : loc) (P T : Q) (z : ndarray) : M ndarray :=
  Z_factor <- calculate_Z self P T z ;;
  m <- model self ;;
  calculate_fugacity m P T z Z_factor.
End Methods.
End NichitaSRK.

(** ** The cubic equation of state, from the design document

    The classes behind [PengRobinson78] and [SoaveRedlichKwong] are not
    part of the notebook.  They are embedded from the design document
    (sections 3, 4.1, 7 and 9), with the quantities it names but does not
    spell out kept as an interface. *)

(** Modelled from the spec: the capability interface of an EOS variant
    named in the design notes ([alpha_function], [cubic_coefficients(A,B)],
    [departure_functions]); the module [gibbs.models.ceos] that implements
    it is missing.  [a_pure] is the pure-component attraction parameter
    [a_i(T)] (it contains the alpha function), [b_pure] the covolume [b_i],
    [gibbs_departure A B Z] the residual molar Gibbs energy of a root and
    [fugacity_coefficient A B Z b_i b_mix a_mix da_i] the closed form of
    [phi_i]. *)
Record EosVariant := {
  a_pure : Q -> Q -> Q -> Q -> Q;
  b_pure : Q -> Q -> Q -> Q;
  cubic_coefficients : Q -> Q -> Q * Q * Q;
  gibbs_departure : Q -> Q -> Q -> Q;
  fugacity_coefficient : Q -> Q -> Q -> Q -> Q -> Q -> Q -> Q
}.

(** Modelled from the spec: the numerical primitives the cubic EOS of
    [gibbs.models.ceos] needs: the gas constant, the square root of the
    mixing rule, the closed-form solver returning the (deduplicated) real
    roots of [Z^3 + c2 Z^2 + c1 Z + c0], and the two variants. *)
Class Thermo := {
  R_gas : Q;
  Qsqrt : Q -> Q;
  real_roots : Q -> Q -> Q -> list Q;
  PR78 : EosVariant;
  SRK : EosVariant
}.

Definition sumQ (l : list Q) : Q := fold_right Qplus 0 l.

(** [x < y] on floats, as a boolean. *)
Definition Qlt_bool (x y : Q) : bool := negb (Qle_bool y x).

(** Modelled from the spec: the admissibility test [Z > B] of a root. *)
Definition admissible (B Z : Q) : bool := Qlt_bool B Z.

(** Modelled from the spec: the root of minimum Gibbs energy among
    [best :: rest]; the first one wins a tie. *)
Fixpoint min_energy_root (g : Q -> Q) (best : Q) (rest : list Q) : Q :=
  match rest with
  | [] => best
  | r :: rest' =>
      if Qle_bool (g best) (g r) then min_energy_root g best rest'
      else min_energy_root g r rest'
  end.

(** Modelled from the spec: root selection of [calculate_Z_minimal_energy].
    A single real root is returned directly (no energy is evaluated);
    otherwise the admissible roots are compared by Gibbs energy.  In both
    cases a cubic without admissible root is [NoPhysicalRootError]. *)
Definition select_root (g : Q -> Q) (B : Q) (roots : list Q) : outcome Q :=
  match roots with
  | [r] => if admissible B r then Return r else Raise NoPhysicalRootError
  | _ =>
      match List.filter (admissible B) roots with
      | [] => Raise NoPhysicalRootError
      | r :: rs => Return (min_energy_root g r rs)
      end
  end.

Section CubicEos.
Context `{Thermo}.

(** Modelled from the spec: what an EOS instance of [gibbs.models.ceos] is
    configured with: the variant, the critical properties of its mixture
    and its interaction matrix. *)
Definition eos_configuration : Type :=
  EosVariant * (ndarray * ndarray * ndarray) * list ndarray.

(** Modelled from the spec: an EOS method of [gibbs.models.ceos] reads its
    configuration through the references the instance holds. *)
Definition read_configuration (v : EosVariant) (mixture bip : loc)
  : M eos_configuration :=
  m <- load mixture ;;
  k <- load bip ;;
  match m, k with
  | OMixture _ Tc Pc omega, OMatrix rows => ret (v, (Tc, Pc, omega), rows)
  | _, _ => raise AttributeError
  end.

Definition eos_config (self : loc) : M eos_configuration :=
  o <- load self ;;
  match o with
  | OPengRobinson78 mixture bip => read_configuration PR78 mixture bip
  | OSoaveRedlichKwong mixture bip => read_configuration SRK mixture bip
  | _ => raise AttributeError
  end.

(** The configuration an EOS instance reads, from the class, the mixture
    and the matrix it refers to. *)
Definition configuration_of_view (v : bool * obj * obj)
  : outcome eos_configuration :=
  match v with
  | (c, OMixture _ Tc Pc omega, OMatrix rows) =>
      Return (if c then PR78 else SRK, (Tc, Pc, omega), rows)
  | _ => Raise AttributeError
  end.

(** Modelled from the spec: pure-component parameters [a_i(T)], [b_i]. *)
Definition pure_a (c : eos_configuration) (T : Q) : list Q :=
  let '(v, (Tc, Pc, omega), _) := c in
  zip_with (fun tp w => a_pure v T (fst tp) (snd tp) w) (zip Tc Pc) omega.

Definition pure_b (c : eos_configuration) : list Q :=
  let '(v, (Tc, Pc, omega), _) := c in
  zip_with (fun tp w => b_pure v (fst tp) (snd tp) w) (zip Tc Pc) omega.

(** Modelled from the spec: the mixing rules
    [a_mix = sum_i sum_j z_i z_j sqrt(a_i a_j) (1 - k_ij)] and
    [b_mix = sum_i z_i b_i]. *)
Definition a_mix (a : list Q) (k : list ndarray) (z : ndarray) : Q :=
  sumQ (map (fun i =>
    sumQ (map (fun j =>
      nth i z 0 * nth j z 0 * Qsqrt (nth i a 0 * nth j a 0)
      * (1 - nth j (nth i k []) 0)) (seq 0 (length z))))
    (seq 0 (length z))).

Definition b_mix (b : list Q) (z : ndarray) : Q :=
  sumQ (zip_with Qmult z b).

(** Modelled from the spec: the derivative of [a_mix] with respect to the
    mole number of component [i], from the quadratic mixing rule. *)
Definition da_mix (a : list Q) (k : list ndarray) (z : ndarray) (i : nat) : Q :=
  2 * sumQ (map (fun j =>
    nth j z 0 * Qsqrt (nth i a 0 * nth j a 0) * (1 - nth j (nth i k []) 0))
    (seq 0 (length z))).

(** Modelled from the spec: [A = a_mix P / (R T)^2], [B = b_mix P / (R T)]. *)
Definition eos_A (c : eos_configuration) (P T : Q) (z : ndarray) : Q :=
  a_mix (pure_a c T) (snd c) z * P / ((R_gas * T) * (R_gas * T)).

Definition eos_B (c : eos_configuration) (P T : Q) (z : ndarray) : Q :=
  b_mix (pure_b c) z * P / (R_gas * T).

Definition variant_of (c : eos_configuration) : EosVariant := fst (fst c).

(** Modelled from the spec: the real roots of the cubic at [(P, T, z)], as
    the solver of [gibbs.models.ceos] reports them. *)
Definition cubic_roots (c : eos_configuration) (P T : Q) (z : ndarray) : list Q :=
  let '(c2, c1, c0) :=
    cubic_coefficients (variant_of c) (eos_A c P T z) (eos_B c P T z) in
  real_roots c2 c1 c0.

(** Modelled from the spec: the Gibbs energy by which
    [gibbs.models.ceos] compares the roots. *)
Definition root_energy (c : eos_configuration) (P T : Q) (z : ndarray) : Q -> Q :=
  gibbs_departure (variant_of c) (eos_A c P T z) (eos_B c P T z).

Definition lift {A} (r : outcome A) : M A := fun s => (r, s).

(** Modelled from the spec: [calculate_Z_minimal_energy(P, T, z)] of
    [gibbs.models.ceos]. *)
Definition ceos_calculate_Z_minimal_energy (self : loc) (P T : Q) (z : ndarray)
  : M Q :=
  c <- eos_config self ;;
  lift (select_root (root_energy c P T z) (eos_B c P T z) (cubic_roots c P T z)).

(** Modelled from the spec: [calculate_fugacity(P, T, z, Z)] of
    [gibbs.models.ceos]: [f_i = phi_i * z_i * P]. *)
Definition ceos_calculate_fugacity (self : loc) (P T : Q) (z : ndarray) (Z : Q)
  : M ndarray :=
  c <- eos_config self ;;
  let a := pure_a c T in
  let b := pure_b c in
  ret (imap (fun i z_i =>
         fugacity_coefficient (variant_of c) (eos_A c P T z) (eos_B c P T z) Z
           (nth i b 0) (b_mix b z) (a_mix a (snd c) z) (da_mix a (snd c) z i)
         * z_i * P) z).

(** Modelled from the spec: the EOS classes of [gibbs.models.ceos], as the
    interface the adapters use. *)
Definition gibbs_ceos : CubicEquationOfState := {|
  calculate_Z_minimal_energy := ceos_calculate_Z_minimal_energy;
  calculate_fugacity := ceos_calculate_fugacity
|}.
End CubicEos.

(** ** The stability test, from the design document

    [stability_test] is imported from [gibbs.stability_analysis]; the
    notebook only calls it.  It is embedded from sections 4.2, 6 and 7 of
    the design document, over the protocol the adapters implement. *)

(** Modelled from the spec: what the stability analysis of
    [gibbs.stability_analysis] needs and the document leaves open: the
    exponential and logarithm, the iteration cap, the tolerance of the
    trivial-solution test and the extra seeds used beyond two components. *)
Class StabilitySettings := {
  Qexp : Q -> Q;
  Qln : Q -> Q;
  max_iterations : nat;
  tol_trivial : Q;
  extra_seeds : ndarray -> list ndarray
}.

(** Modelled from the spec: the tolerances it gives: [1e-10] on the squared
    change of [ln Y], [1e-9] on [sum(Y) - 1], [1e-6] on the feed sum. *)
Definition tol_convergence : Q := 1 # 10000000000.
Definition tol_sum : Q := 1 # 1000000000.
Definition tol_composition : Q := 1 # 1000000.

(** Modelled from the spec: how one trial ends: the iteration cap was
    reached, or it converged to the feed itself, or to another stationary
    point with mole numbers [Y]. *)
Inductive trial :=
| NonConverged
| Trivial
| Stationary (Y : ndarray).

(** Modelled from the spec: [StabilityResult]: the verdict, the converged
    non-trivial trial compositions with their [sum(Y)], and the number of
    trials that did not converge. *)
Record StabilityResult := {
  phase_split : bool;
  stationary_points : list (ndarray * Q);
  non_converged : nat
}.

(** Modelled from the spec: [y = Y / sum(Y)]. *)
Definition normalize (Y : ndarray) : ndarray :=
  map (fun Y_i => Y_i / sumQ Y) Y.

(** Modelled from the spec: a stationary point certifies instability when
    [sum(Y) > 1], unless [|sum(Y) - 1| < 1e-9] (the tie-break: within the
    tolerance the feed counts as stable). *)
Definition certifies_instability (Y : ndarray) : bool :=
  Qlt_bool 1 (sumQ Y) && negb (Qlt_bool (Qabs (sumQ Y - 1)) tol_sum).

Definition unstable_trial (t : trial) : bool :=
  match t with
  | Stationary Y => certifies_instability Y
  | _ => false
  end.

(** Modelled from the spec: the verdict is the logical OR over the trials. *)
Definition verdict (trials : list trial) : bool := existsb unstable_trial trials.

(** Modelled from the spec: what the result reports besides the verdict. *)
Definition reported_points (trials : list trial) : list (ndarray * Q) :=
  flat_map (fun t =>
    match t with
    | Stationary Y => [(normalize Y, sumQ Y)]
    | _ => []
    end) trials.

Definition count_non_converged (trials : list trial) : nat :=
  length (List.filter (fun t => match t with NonConverged => true | _ => false end)
                      trials).

Definition make_result (trials : list trial) : StabilityResult :=
  {| phase_split := verdict trials;
     stationary_points := reported_points trials;
     non_converged := count_non_converged trials |}.

(** Modelled from the spec: [InvalidCompositionError]: an entry is
    negative, or the entries do not sum to 1 within [1e-6]. *)
Definition valid_composition (z : ndarray) : bool :=
  forallb (fun z_i => Qle_bool 0 z_i) z
  && Qle_bool (Qabs (sumQ z - 1)) tol_composition.

Section StabilityAnalyzer.
Context `{CubicEquationOfState} `{StabilitySettings}.

(** [model.fugacity(P, T, y)] as [stability_test] calls it: the method of
    the class of [model]. *)
Definition model_fugacity (model : loc) (P T : Q) (y : ndarray) : M ndarray :=
  o <- load model ;;
  match o with
  | ONichitaPR _ _ => NichitaPR.fugacity model P T y
  | ONichitaSRK _ _ => NichitaSRK.fugacity model P T y
  | _ => raise AttributeError
  end.

(** Modelled from the spec: the critical properties [(Tc, Pc, omega)] that
    the Wilson correlation needs, read from [model.mixture]. *)
Definition model_mixture (model : loc) : M (ndarray * ndarray * ndarray) :=
  o <- load model ;;
  match o with
  | ONichitaPR mixture _ | ONichitaSRK mixture _ =>
      m <- load mixture ;;
      match m with
      | OMixture _ Tc Pc omega => ret (Tc, Pc, omega)
      | _ => raise AttributeError
      end
  | _ => raise AttributeError
  end.

(** Modelled from the spec: [ln phi_i] from the fugacity
    [f_i = phi_i * y_i * P]. *)
Definition ln_phi (P : Q) (y f : ndarray) : ndarray :=
  zip_with (fun y_i f_i => Qln (f_i / (y_i * P))) y f.

(** Modelled from the spec: the Wilson correlation
    [K_i = (Pc_i / P) * exp(5.373 (1 + omega_i) (1 - Tc_i / T))]. *)
Definition wilson_K (props : ndarray * ndarray * ndarray) (P T : Q) : ndarray :=
  let '(Tc, Pc, omega) := props in
  zip_with (fun tp w =>
    (snd tp / P) * Qexp ((5373 # 1000) * (1 + w) * (1 - fst tp / T)))
    (zip Tc Pc) omega.

(** Modelled from the spec: the seeds: [K_i z_i] (vapour-like),
    [z_i / K_i] (liquid-like), and further ones beyond two components;
    each renormalized. *)
Definition initial_trials (props : ndarray * ndarray * ndarray) (P T : Q)
    (z : ndarray) : list ndarray :=
  let K := wilson_K props P T in
  map normalize
    ([zip_with Qmult K z; zip_with Qdiv z K]
     ++ (if (2 <? length z)%nat then extra_seeds z else [])).

(** Modelled from the spec: the successive-substitution update
    [Y_i := exp(ln z_i + ln phi_i^feed - ln phi_i(Y))]. *)
Definition update_Y (z ln_phi_feed ln_phi_Y : ndarray) : ndarray :=
  zip_with (fun z_i d => Qexp (Qln z_i + d)) z
    (zip_with Qminus ln_phi_feed ln_phi_Y).

(** Modelled from the spec: the convergence criterion: the sum of squared
    differences in [ln Y_i] between iterations is below [1e-10]. *)
Definition converged (Y Y' : ndarray) : bool :=
  Qlt_bool
    (sumQ (zip_with (fun a b => (Qln b - Qln a) * (Qln b - Qln a)) Y Y'))
    tol_convergence.

(** Modelled from the spec: the trivial-solution test: every
    [ln(y_i / z_i)] is near zero. *)
Definition is_trivial (z Y : ndarray) : bool :=
  forallb (fun d => Qlt_bool (Qabs d) tol_trivial)
    (zip_with (fun y_i z_i => Qln (y_i / z_i)) (normalize Y) z).

(** Modelled from the spec: a converged trial is trivial or a stationary
    point of its own. *)
Definition classify (z Y : ndarray) : trial :=
  if is_trivial z Y then Trivial else Stationary Y.

(** Modelled from the spec: one trial: a loop bounded by the iteration
    cap with an early exit on convergence. *)
Fixpoint iterate_trial (model : loc) (P T : Q) (z ln_phi_feed : ndarray)
    (fuel : nat) (Y : ndarray) : M trial :=
  match fuel with
  | O => ret NonConverged
  | S fuel' =>
      let y := normalize Y in
      f <- model_fugacity model P T y ;;
      let Y' := update_Y z ln_phi_feed (ln_phi P y f) in
      if converged Y Y' then ret (classify z Y')
      else iterate_trial model P T z ln_phi_feed fuel' Y'
  end.

(** Modelled from the spec: every seed is iterated; a trial that does not
    converge does not stop the others. *)
Fixpoint run_trials (model : loc) (P T : Q) (z ln_phi_feed : ndarray)
    (seeds : list ndarray) : M (list trial) :=
  match seeds with
  | [] => ret []
  | y0 :: rest =>
      t <- iterate_trial model P T z ln_phi_feed max_iterations y0 ;;
      ts <- run_trials model P T z ln_phi_feed rest ;;
      ret (t :: ts)
  end.

(** Modelled from the spec: steps 1 to 4 of the algorithm: the feed
    fugacities first (an EOS failure at the feed is fatal for every feed),
    then the single-component guard (no trial is run: no instability is
    possible without composition freedom), else the seeds and every trial
    iterated to its end. *)
Definition stability_trials (model : loc) (P T : Q) (z : ndarray)
  : M (list trial) :=
  f_feed <- model_fugacity model P T z ;;
  if (length z =? 1)%nat then ret []
  else
    props <- model_mixture model ;;
    run_trials model P T z (ln_phi P z f_feed) (initial_trials props P T z).

(** Modelled from the spec: [stability_test(model, P, T, z)]: validation
    first, then the trials and the verdict over them. *)
Definition stability_test (model : loc) (P T : Q) (z : ndarray)
  : M StabilityResult :=
  if negb (valid_composition z) then raise InvalidCompositionError
  else
    trials <- stability_trials model P T z ;;
    ret (make_result trials).
End StabilityAnalyzer.

(** ** What the adapters rely on

    The design document states that the mixture and the EOS configuration
    are read-only during a stability test and that the EOS layer is
    deterministic.  For an arbitrary implementation of the interface these
    are assumptions; for [gibbs_ceos] they are proved below. *)

(** An EOS method may create objects but leaves every existing one as it
    is. *)
Class ReadOnlyEos `{CubicEquationOfState} : Prop := {
  Z_read_only : forall e P T z (s : store),
    s `prefix_of` snd (calculate_Z_minimal_energy e P T z s);
  fugacity_read_only : forall e P T z Z (s : store),
    s `prefix_of` snd (calculate_fugacity e P T z Z s)
}.

(** What an EOS instance can see: its class, its mixture and its
    interaction matrix. *)
Definition eos_view (s : store) (e : loc) : option (bool * obj * obj) :=
  match s !! e with
  | Some (OPengRobinson78 mixture bip) =>
      match s !! mixture, s !! bip with
      | Some m, Some k => Some (true, m, k)
      | _, _ => None
      end
  | Some (OSoaveRedlichKwong mixture bip) =>
      match s !! mixture, s !! bip with
      | Some m, Some k => Some (false, m, k)
      | _, _ => None
      end
  | _ => None
  end.

(** Same inputs, same outputs: the value an EOS method returns depends on
    the store only through what the instance is configured with. *)
Class DeterministicEos `{CubicEquationOfState} : Prop := {
  Z_deterministic : forall e e' P T z (s s' : store),
    is_Some (eos_view s e) -> eos_view s e = eos_view s' e' ->
    fst (calculate_Z_minimal_energy e P T z s)
    = fst (calculate_Z_minimal_energy e' P T z s');
  fugacity_deterministic : forall e e' P T z Z (s s' : store),
    is_Some (eos_view s e) -> eos_view s e = eos_view s' e' ->
    fst (calculate_fugacity e P T z Z s)
    = fst (calculate_fugacity e' P T z Z s')
}.

(** What an adapter is configured with, seen through its two fields. *)
Definition adapter_view (s : store) (self : loc) : option (bool * obj * obj) :=
  match s !! self with
  | Some (ONichitaPR mixture bip) =>
      match s !! mixture, s !! bip with
      | Some m, Some k => Some (true, m, k)
      | _, _ => None
      end
  | Some (ONichitaSRK mixture bip) =>
      match s !! mixture, s !! bip with
      | Some m, Some k => Some (false, m, k)
      | _, _ => None
      end
  | _ => None
  end.

(** ** A small instance to run the definitions

    A test double of the numerical layer: exact on the inputs used in the
    examples, with first-order stand-ins for [exp] and [ln].  It is only
    used to evaluate the definitions on concrete inputs. *)

(** Square root, exact on squares of rationals. *)
Definition sample_sqrt (x : Q) : Q :=
  let r := Qred x in Z.sqrt (Qnum r) # Pos.sqrt (Qden r).

Definition sample_ln (x : Q) : Q := Qred (x - 1).

Definition sample_exp (x : Q) : Q := Qred (1 + x).

(** The SRK cubic [Z^3 - Z^2 + (A - B - B^2) Z - A B] with departure
    functions linearized through [sample_ln] and [sample_exp]. *)
Definition sample_variant : EosVariant := {|
  a_pure := fun T Tc Pc omega => Tc * Tc / Pc;
  b_pure := fun Tc Pc omega => Tc / Pc;
  cubic_coefficients := fun A B => (- (1), A - B - B * B, - (A * B));
  gibbs_departure := fun A B Z =>
    Z - 1 - sample_ln (Z - B) - (A / B) * sample_ln (1 + B / Z);
  fugacity_coefficient := fun A B Z b_i b a da =>
    sample_exp ((b_i / b) * (Z - 1) - sample_ln (Z - B))
|}.

(** The solver double answers with the three real roots of the SRK cubic
    at [A = 5/12], [B = 1/12], which are [1/4], [1/3] and [5/12]. *)
Definition sample_thermo : Thermo := {|
  R_gas := 1;
  Qsqrt := sample_sqrt;
  real_roots := fun c2 c1 c0 => [1 # 4; 1 # 3; 5 # 12];
  PR78 := sample_variant;
  SRK := sample_variant
|}.

Definition sample_settings : StabilitySettings := {|
  Qexp := sample_exp;
  Qln := sample_ln;
  max_iterations := 2;
  tol_trivial := 1 # 1000;
  extra_seeds := fun z => []
|}.

(** A store as the notebook builds it: one mixture, one interaction
    matrix ([k12 = 0.080]), and an adapter of each class over them. *)
Definition sample_store : store :=
  [ OMixture [1 # 2; 1 # 2] [125 # 24; 125 # 24] [125 # 2; 125 # 2] [1 # 100; 1 # 10];
    OMatrix [[0; 8 # 100]; [8 # 100; 0]];
    ONichitaSRK 0%nat 1%nat;
    ONichitaPR 0%nat 1%nat ].


Definition sample_ceos : CubicEquationOfState := @gibbs_ceos sample_thermo.

(** An EOS whose root resolution overwrites the object at address 0; it
    is not read-only. *)
Definition writing_ceos : CubicEquationOfState := {|
  calculate_Z_minimal_energy := fun e P T z s =>
    (Return 1, <[0%nat := OMixture [] [] [] []]> s);
  calculate_fugacity := fun e P T z Z s => (Return z, s)
|}.

(** ** Construction of the adapters

    Both classes are declared with [@attr.s(auto_attribs=True)] and two
    annotated fields, [mixture] and [bip], without validator or converter:
    the generated [__init__] stores the two references in a new object. *)
Definition new_NichitaPR (mixture bip : loc) : M loc :=
  alloc (ONichitaPR mixture bip).

Definition new_NichitaSRK (mixture bip : loc) : M loc :=
  alloc (ONichitaSRK mixture bip).

(** The methods of an adapter, selected by its class ([true] for
    [NichitaPR], [false] for [NichitaSRK]). *)
Definition adapter_calculate_Z `{CubicEquationOfState} (pr : bool)
  : loc -> Q -> Q -> ndarray -> M Q :=
  if pr then NichitaPR.calculate_Z else NichitaSRK.calculate_Z.

Definition adapter_fugacity `{CubicEquationOfState} (pr : bool)
  : loc -> Q -> Q -> ndarray -> M ndarray :=
  if pr then NichitaPR.fugacity else NichitaSRK.fugacity.

(** An EOS whose methods neither create nor change objects. *)
Class StorePreservingEos `{CubicEquationOfState} : Prop := {
  Z_preserves : forall e P T z (s : store),
    snd (calculate_Z_minimal_energy e P T z s) = s;
  fugacity_preserves : forall e P T z Z (s : store),
    snd (calculate_fugacity e P T z Z s) = s
}.

(** The same mixture, matrix and adapter as in [sample_store], built in
    another order and after an unrelated object. *)
Definition sample_store_reordered : store :=
  [ OMatrix [[1]];
    OMatrix [[0; 8 # 100]; [8 # 100; 0]];
    OMixture [1 # 2; 1 # 2] [125 # 24; 125 # 24] [125 # 2; 125 # 2] [1 # 100; 1 # 10];
    ONichitaSRK 2%nat 1%nat ].

(** ** Which compositions a stability test evaluates

    The EOS is asked for fugacities at the feed and then at every iterate
    of every trial.  The relations below follow one call of
    [stability_test] and name each composition [y] at which the EOS is
    asked, with the store [s'] in which it is asked. *)

Section Evaluations.
Context `{CubicEquationOfState} `{StabilitySettings}.

(** Modelled from the spec: step 3 of the algorithm: a trial with
    iterations left asks at its current composition, and, if the EOS
    answers and the iteration has not converged, goes on from the updated
    mole numbers. *)
Inductive trial_evaluates (model : loc) (P T : Q) (z lpf : ndarray)
  : nat -> ndarray -> store -> ndarray -> store -> Prop :=
| evaluates_now fuel Y s :
    trial_evaluates model P T z lpf (S fuel) Y s (normalize Y) s
| evaluates_later fuel Y s f s1 y s' :
    model_fugacity model P T (normalize Y) s = (Return f, s1) ->
    converged Y (update_Y z lpf (ln_phi P (normalize Y) f)) = false ->
    trial_evaluates model P T z lpf fuel
      (update_Y z lpf (ln_phi P (normalize Y) f)) s1 y s' ->
    trial_evaluates model P T z lpf (S fuel) Y s y s'.

(** Modelled from the spec: the trials are run one after the other; a
    later trial is reached when the earlier ones ended without error. *)
Inductive trials_evaluate (model : loc) (P T : Q) (z lpf : ndarray)
  : list ndarray -> store -> ndarray -> store -> Prop :=
| in_this_trial y0 rest s y s' :
    trial_evaluates model P T z lpf max_iterations y0 s y s' ->
    trials_evaluate model P T z lpf (y0 :: rest) s y s'
| in_later_trial y0 rest s t s1 y s' :
    iterate_trial model P T z lpf max_iterations y0 s = (Return t, s1) ->
    trials_evaluate model P T z lpf rest s1 y s' ->
    trials_evaluate model P T z lpf (y0 :: rest) s y s'.

(** Modelled from the spec: a stability test asks at the feed (step 1)
    and, for a feed of more than one component, at what its trials ask. *)
Inductive evaluates (model : loc) (P T : Q) (z : ndarray)
  : store -> ndarray -> store -> Prop :=
| evaluates_feed s : evaluates model P T z s z s
| evaluates_in_trials s f_feed s1 props s2 y s' :
    model_fugacity model P T z s = (Return f_feed, s1) ->
    length z <> 1%nat ->
    model_mixture model s1 = (Return props, s2) ->
    trials_evaluate model P T z (ln_phi P z f_feed)
      (initial_trials props P T z) s2 y s' ->
    evaluates model P T z s y s'.
End Evaluations.



(** Two components of unlike covolume ([b = (1/12, 1)] in the sample
    variant), with a feed rich in the small one. *)
Definition sample_store_unlike : store :=
  [ OMixture [9 # 10; 1 # 10] [1; 1] [12; 1] [0; 0];
    OMatrix [[0; 0]; [0; 0]];
    ONichitaSRK 0%nat 1%nat ].

(** A single component. *)
Definition sample_store_single : store :=
  [ OMixture [1] [125 # 24] [125 # 2] [1 # 100];
    OMatrix [[0]];
    ONichitaSRK 0%nat 1%nat ].

(** ** Valid inputs of the equation of state *)









(** A computation that only adds objects to the store. *)
Definition grows {A} (c : M A) : Prop :=
  forall s : store, s `prefix_of` snd (c s).

(** * Properties *)

(** ** The store only grows *)

Lemma prefix_lookup (s s' : store) (l : loc) (o : obj) :
  s `prefix_of` s' -> s !! l = Some o -> s' !! l = Some o.
Proof. intros Hp Hl. exact (prefix_lookup_Some s s' l o Hl Hp). Qed.

Lemma lookup_fresh (s : store) : s !! length s = None.
Proof. apply lookup_ge_None. lia. Qed.

Lemma lookup_alloc (s : store) (o : obj) : (s ++ [o]) !! length s = Some o.
Proof. rewrite lookup_app_r by lia. by rewrite Nat.sub_diag. Qed.

Lemma lookup_alloc_old (s : store) (o o' : obj) (l : loc) :
  s !! l = Some o -> (s ++ [o']) !! l = Some o.
Proof. intros Hl. by apply lookup_app_l_Some. Qed.

Lemma prefix_alloc (s s' : store) (o : obj) :
  (s ++ [o]) `prefix_of` s' -> s `prefix_of` s'.
Proof. intros Hp. etrans; [apply prefix_app_r; reflexivity | exact Hp]. Qed.

Section Adapters.
Context `{CubicEquationOfState}.

Lemma PR_model_eq (s : store) self mixture bip :
  s !! self = Some (ONichitaPR mixture bip) ->
  NichitaPR.model self s = (Return (length s), s ++ [OPengRobinson78 mixture bip]).
Proof.
  intros Hs. unfold NichitaPR.model, bind, load. by rewrite Hs.
Qed.

Lemma SRK_model_eq (s : store) self mixture bip :
  s !! self = Some (ONichitaSRK mixture bip) ->
  NichitaSRK.model self s
  = (Return (length s), s ++ [OSoaveRedlichKwong mixture bip]).
Proof.
  intros Hs. unfold NichitaSRK.model, bind, load. by rewrite Hs.
Qed.

Lemma PR_calculate_Z_eq (s : store) self mixture bip P T z :
  s !! self = Some (ONichitaPR mixture bip) ->
  NichitaPR.calculate_Z self P T z s
  = calculate_Z_minimal_energy (length s) P T z
      (s ++ [OPengRobinson78 mixture bip]).
Proof.
  intros Hs. unfold NichitaPR.calculate_Z, bind.
  rewrite (PR_model_eq s self mixture bip Hs).
  by destruct (calculate_Z_minimal_energy _ _ _ _ _) as [[Z|e] s2].
Qed.

Lemma SRK_calculate_Z_eq (s : store) self mixture bip P T z :
  s !! self = Some (ONichitaSRK mixture bip) ->
  NichitaSRK.calculate_Z self P T z s
  = calculate_Z_minimal_energy (length s) P T z
      (s ++ [OSoaveRedlichKwong mixture bip]).
Proof.
  intros Hs. unfold NichitaSRK.calculate_Z, bind.
  rewrite (SRK_model_eq s self mixture bip Hs).
  by destruct (calculate_Z_minimal_energy _ _ _ _ _) as [[Z|e] s2].
Qed.

Context `{!ReadOnlyEos}.

Lemma PR_fugacity_eq (s : store) self mixture bip P T z :
  s !! self = Some (ONichitaPR mixture bip) ->
  NichitaPR.fugacity self P T z s
  = (m1 <- PengRobinson78 mixture bip ;;
     Z <- calculate_Z_minimal_energy m1 P T z ;;
     m2 <- PengRobinson78 mixture bip ;;
     calculate_fugacity m2 P T z Z) s.
Proof.
  intros Hs. unfold NichitaPR.fugacity, bind at 1.
  rewrite (PR_calculate_Z_eq s self mixture bip P T z Hs).
  unfold bind, PengRobinson78, alloc.
  pose proof (Z_read_only (length s) P T z (s ++ [OPengRobinson78 mixture bip]))
    as Hro.
  destruct (calculate_Z_minimal_energy _ _ _ _ _) as [[Z|e] s2]; [|done].
  simpl in Hro.
  rewrite (PR_model_eq s2 self mixture bip); [done|].
  eapply prefix_lookup; [exact Hro|]. by apply lookup_alloc_old.
Qed.

Lemma SRK_fugacity_eq (s : store) self mixture bip P T z :
  s !! self = Some (ONichitaSRK mixture bip) ->
  NichitaSRK.fugacity self P T z s
  = (m1 <- SoaveRedlichKwong mixture bip ;;
     Z <- calculate_Z_minimal_energy m1 P T z ;;
     m2 <- SoaveRedlichKwong mixture bip ;;
     calculate_fugacity m2 P T z Z) s.
Proof.
  intros Hs. unfold NichitaSRK.fugacity, bind at 1.
  rewrite (SRK_calculate_Z_eq s self mixture bip P T z Hs).
  unfold bind, SoaveRedlichKwong, alloc.
  pose proof (Z_read_only (length s) P T z
                (s ++ [OSoaveRedlichKwong mixture bip])) as Hro.
  destruct (calculate_Z_minimal_energy _ _ _ _ _) as [[Z|e] s2]; [|done].
  simpl in Hro.
  rewrite (SRK_model_eq s2 self mixture bip); [done|].
  eapply prefix_lookup; [exact Hro|]. by apply lookup_alloc_old.
Qed.
End Adapters.

(** ** Frame: computations that only add objects *)

Lemma grows_ret {A} (a : A) : grows (ret a).
Proof. intros s. reflexivity. Qed.

Lemma grows_raise {A} (e : exn) : grows (@raise A e).
Proof. intros s. reflexivity. Qed.

Lemma grows_lift {A} (r : outcome A) : grows (lift r).
Proof. intros s. reflexivity. Qed.

Lemma grows_load (l : loc) : grows (load l).
Proof. intros s. unfold load. by destruct (s !! l). Qed.

Lemma grows_alloc (o : obj) : grows (alloc o).
Proof. intros s. simpl. by apply prefix_app_r. Qed.

Lemma grows_bind {A B} (c : M A) (k : A -> M B) :
  grows c -> (forall a, grows (k a)) -> grows (bind c k).
Proof.
  intros Hc Hk s. unfold bind. specialize (Hc s).
  destruct (c s) as [[a|e] s1]; simpl in *; [|done].
  etrans; [exact Hc | apply Hk].
Qed.

Create HintDb frame.
#[local] Hint Resolve grows_ret grows_raise grows_lift grows_load grows_alloc : frame.

Ltac frame_step :=
  repeat first
    [ apply grows_bind; [|intros ?]
    | progress eauto with frame
    | match goal with |- grows (match ?o with _ => _ end) => destruct o end ].

Section AdapterFrame.
Context `{CubicEquationOfState}.

Lemma PR_number_of_components_pure self (s : store) :
  snd (NichitaPR.number_of_components self s) = s.
Proof.
  unfold NichitaPR.number_of_components, bind, load.
  destruct (s !! self) as [[]|]; try done.
  destruct (s !! _) as [[]|]; done.
Qed.

Lemma SRK_number_of_components_pure self (s : store) :
  snd (NichitaSRK.number_of_components self s) = s.
Proof.
  unfold NichitaSRK.number_of_components, bind, load.
  destruct (s !! self) as [[]|]; try done.
  destruct (s !! _) as [[]|]; done.
Qed.

Lemma grows_PR_model self : grows (NichitaPR.model self).
Proof. unfold NichitaPR.model, PengRobinson78. frame_step. Qed.

Lemma grows_SRK_model self : grows (NichitaSRK.model self).
Proof. unfold NichitaSRK.model, SoaveRedlichKwong. frame_step. Qed.

Context `{!ReadOnlyEos}.

Lemma grows_Z e P T z : grows (calculate_Z_minimal_energy e P T z).
Proof. intros s. apply Z_read_only. Qed.

Lemma grows_fug e P T z Z : grows (calculate_fugacity e P T z Z).
Proof. intros s. apply fugacity_read_only. Qed.

#[local] Hint Resolve grows_PR_model grows_SRK_model grows_Z grows_fug : frame.

Lemma grows_PR_calculate_Z self P T z : grows (NichitaPR.calculate_Z self P T z).
Proof. unfold NichitaPR.calculate_Z. frame_step. Qed.

Lemma grows_SRK_calculate_Z self P T z : grows (NichitaSRK.calculate_Z self P T z).
Proof. unfold NichitaSRK.calculate_Z. frame_step. Qed.

#[local] Hint Resolve grows_PR_calculate_Z grows_SRK_calculate_Z : frame.

Lemma grows_PR_fugacity self P T z : grows (NichitaPR.fugacity self P T z).
Proof. unfold NichitaPR.fugacity. frame_step. Qed.

Lemma grows_SRK_fugacity self P T z : grows (NichitaSRK.fugacity self P T z).
Proof. unfold NichitaSRK.fugacity. frame_step. Qed.

#[local] Hint Resolve grows_PR_fugacity grows_SRK_fugacity : frame.

Context `{StabilitySettings}.

Lemma grows_model_fugacity model P T y : grows (model_fugacity model P T y).
Proof. unfold model_fugacity. frame_step. Qed.

Lemma grows_model_mixture model : grows (model_mixture model).
Proof. unfold model_mixture. frame_step. Qed.

#[local] Hint Resolve grows_model_fugacity grows_model_mixture : frame.

Lemma grows_iterate_trial model P T z lpf fuel Y :
  grows (iterate_trial model P T z lpf fuel Y).
Proof.
  revert Y. induction fuel as [|fuel IH]; intros Y; simpl.
  - apply grows_ret.
  - apply grows_bind; [apply grows_model_fugacity|]. intros f.
    destruct (converged _ _); [apply grows_ret | apply IH].
Qed.

Lemma grows_run_trials model P T z lpf seeds :
  grows (run_trials model P T z lpf seeds).
Proof.
  induction seeds as [|y0 rest IH]; simpl.
  - apply grows_ret.
  - apply grows_bind; [apply grows_iterate_trial|]. intros t.
    apply grows_bind; [exact IH|]. intros ts. apply grows_ret.
Qed.

Lemma grows_stability_trials model P T z :
  grows (stability_trials model P T z).
Proof.
  unfold stability_trials.
  apply grows_bind; [apply grows_model_fugacity|]. intros f.
  destruct (_ =? _)%nat; [apply grows_ret|].
  apply grows_bind; [apply grows_model_mixture|]. intros props.
  apply grows_run_trials.
Qed.

Lemma grows_stability_test model P T z :
  grows (stability_test model P T z).
Proof.
  unfold stability_test.
  destruct (negb _); [apply grows_raise|].
  apply grows_bind; [apply grows_stability_trials|]. intros ts. apply grows_ret.
Qed.
End AdapterFrame.

(** ** Determinism: values that depend on the configuration only *)

Lemma adapter_view_prefix (s s' : store) self v :
  s `prefix_of` s' -> adapter_view s self = Some v -> adapter_view s' self = Some v.
Proof.
  intros Hp. unfold adapter_view.
  destruct (s !! self) as [o|] eqn:Hself; [|done].
  rewrite (prefix_lookup s s' self o Hp Hself).
  destruct o as [| |m b|m b| |]; try done.
  - destruct (s !! m) as [mo|] eqn:Hm; [|done].
    destruct (s !! b) as [bo|] eqn:Hb; [|done].
    by rewrite (prefix_lookup s s' m mo Hp Hm), (prefix_lookup s s' b bo Hp Hb).
  - destruct (s !! m) as [mo|] eqn:Hm; [|done].
    destruct (s !! b) as [bo|] eqn:Hb; [|done].
    by rewrite (prefix_lookup s s' m mo Hp Hm), (prefix_lookup s s' b bo Hp Hb).
Qed.

(** The view of a freshly built EOS instance is the view of the adapter
    that built it. *)
Lemma eos_view_alloc_PR (s : store) mixture bip m k :
  s !! mixture = Some m -> s !! bip = Some k ->
  eos_view (s ++ [OPengRobinson78 mixture bip]) (length s) = Some (true, m, k).
Proof.
  intros Hm Hk. unfold eos_view. rewrite lookup_alloc.
  by rewrite (lookup_alloc_old s m _ mixture Hm), (lookup_alloc_old s k _ bip Hk).
Qed.

Lemma eos_view_alloc_SRK (s : store) mixture bip m k :
  s !! mixture = Some m -> s !! bip = Some k ->
  eos_view (s ++ [OSoaveRedlichKwong mixture bip]) (length s) = Some (false, m, k).
Proof.
  intros Hm Hk. unfold eos_view. rewrite lookup_alloc.
  by rewrite (lookup_alloc_old s m _ mixture Hm), (lookup_alloc_old s k _ bip Hk).
Qed.

(** An adapter view unfolds to the adapter object and its two fields. *)
Lemma adapter_view_inv (s : store) self c m k :
  adapter_view s self = Some (c, m, k) ->
  exists mixture bip,
    s !! self = Some (if c then ONichitaPR mixture bip else ONichitaSRK mixture bip)
    /\ s !! mixture = Some m /\ s !! bip = Some k.
Proof.
  unfold adapter_view. intros Hv.
  destruct (s !! self) as [[| |mixture bip|mixture bip| |]|]; try done;
    destruct (s !! mixture) as [mo|] eqn:Hm; try done;
    destruct (s !! bip) as [bo|] eqn:Hb; try done;
    injection Hv as <- <- <-; by exists mixture, bip.
Qed.

Section AdapterDeterminism.
Context `{CubicEquationOfState} `{!ReadOnlyEos} `{!DeterministicEos}.

Lemma PR_fugacity_agree (s s' : store) self self' mixture bip mixture' bip' m k P T y :
  s !! self = Some (ONichitaPR mixture bip) ->
  s' !! self' = Some (ONichitaPR mixture' bip') ->
  s !! mixture = Some m -> s !! bip = Some k ->
  s' !! mixture' = Some m -> s' !! bip' = Some k ->
  fst (NichitaPR.fugacity self P T y s) = fst (NichitaPR.fugacity self' P T y s').
Proof.
  intros Hs Hs' Hm Hk Hm' Hk'.
  rewrite (PR_fugacity_eq s self mixture bip P T y Hs).
  rewrite (PR_fugacity_eq s' self' mixture' bip' P T y Hs').
  unfold bind, PengRobinson78, alloc.
  pose proof (eos_view_alloc_PR s mixture bip m k Hm Hk) as Hv.
  pose proof (eos_view_alloc_PR s' mixture' bip' m k Hm' Hk') as Hv'.
  pose proof (Z_deterministic (length s) (length s') P T y _ _
                (ex_intro _ _ Hv) (eq_trans Hv (eq_sym Hv'))) as HZ.
  pose proof (Z_read_only (length s) P T y (s ++ [OPengRobinson78 mixture bip])) as Hp.
  pose proof (Z_read_only (length s') P T y (s' ++ [OPengRobinson78 mixture' bip']))
    as Hp'.
  destruct (calculate_Z_minimal_energy (length s) _ _ _ _) as [r s2].
  destruct (calculate_Z_minimal_energy (length s') _ _ _ _) as [r' s2'].
  simpl in *. subst r'. destruct r as [Z|e]; [|done].
  apply prefix_alloc in Hp, Hp'.
  apply fugacity_deterministic.
  - eexists. apply eos_view_alloc_PR; eapply prefix_lookup; eauto.
  - rewrite (eos_view_alloc_PR s2 mixture bip m k) by (eapply prefix_lookup; eauto).
    symmetry. apply eos_view_alloc_PR; eapply prefix_lookup; eauto.
Qed.

Lemma SRK_fugacity_agree (s s' : store) self self' mixture bip mixture' bip' m k P T y :
  s !! self = Some (ONichitaSRK mixture bip) ->
  s' !! self' = Some (ONichitaSRK mixture' bip') ->
  s !! mixture = Some m -> s !! bip = Some k ->
  s' !! mixture' = Some m -> s' !! bip' = Some k ->
  fst (NichitaSRK.fugacity self P T y s) = fst (NichitaSRK.fugacity self' P T y s').
Proof.
  intros Hs Hs' Hm Hk Hm' Hk'.
  rewrite (SRK_fugacity_eq s self mixture bip P T y Hs).
  rewrite (SRK_fugacity_eq s' self' mixture' bip' P T y Hs').
  unfold bind, SoaveRedlichKwong, alloc.
  pose proof (eos_view_alloc_SRK s mixture bip m k Hm Hk) as Hv.
  pose proof (eos_view_alloc_SRK s' mixture' bip' m k Hm' Hk') as Hv'.
  pose proof (Z_deterministic (length s) (length s') P T y _ _
                (ex_intro _ _ Hv) (eq_trans Hv (eq_sym Hv'))) as HZ.
  pose proof (Z_read_only (length s) P T y (s ++ [OSoaveRedlichKwong mixture bip]))
    as Hp.
  pose proof (Z_read_only (length s') P T y
                (s' ++ [OSoaveRedlichKwong mixture' bip'])) as Hp'.
  destruct (calculate_Z_minimal_energy (length s) _ _ _ _) as [r s2].
  destruct (calculate_Z_minimal_energy (length s') _ _ _ _) as [r' s2'].
  simpl in *. subst r'. destruct r as [Z|e]; [|done].
  apply prefix_alloc in Hp, Hp'.
  apply fugacity_deterministic.
  - eexists. apply eos_view_alloc_SRK; eapply prefix_lookup; eauto.
  - rewrite (eos_view_alloc_SRK s2 mixture bip m k) by (eapply prefix_lookup; eauto).
    symmetry. apply eos_view_alloc_SRK; eapply prefix_lookup; eauto.
Qed.

End AdapterDeterminism.

(** ** Root selection *)

Lemma admissible_lt (B Z : Q) : admissible B Z = true <-> B < Z.
Proof.
  unfold admissible, Qlt_bool. rewrite negb_true_iff.
  split.
  - intros Hb. apply Qnot_le_lt. intros Hle.
    apply Qle_bool_iff in Hle. congruence.
  - intros Hlt. destruct (Qle_bool Z B) eqn:Hb; [|done].
    apply Qle_bool_iff in Hb. exfalso. by apply (Qlt_not_le B Z).
Qed.

Lemma min_energy_root_In (g : Q -> Q) (rest : list Q) (best : Q) :
  In (min_energy_root g best rest) (best :: rest).
Proof.
  revert best. induction rest as [|r rest IH]; intros best; simpl.
  - by left.
  - destruct (Qle_bool (g best) (g r)).
    + destruct (IH best) as [Heq|Hin]; [by left | right; by right].
    + right. apply IH.
Qed.



(** Selection over the admissible roots, whatever the number of roots. *)
Lemma select_root_filter (g : Q -> Q) (B : Q) (roots : list Q) :
  select_root g B roots
  = match List.filter (admissible B) roots with
    | [] => Raise NoPhysicalRootError
    | r :: rs => Return (min_energy_root g r rs)
    end.
Proof.
  destruct roots as [|r [|r' rest]]; try done.
  simpl. by destruct (admissible B r).
Qed.


Lemma select_root_none (g : Q -> Q) (B : Q) (roots : list Q) :
  (forall r, In r roots -> ~ B < r) ->
  select_root g B roots = Raise NoPhysicalRootError.
Proof.
  intros Hno. rewrite select_root_filter.
  destruct (List.filter (admissible B) roots) as [|a adm] eqn:Hadm; [done|].
  assert (Hin : In a (List.filter (admissible B) roots)) by (rewrite Hadm; by left).
  apply filter_In in Hin as [Hin Ha]. apply admissible_lt in Ha.
  by destruct (Hno a Hin).
Qed.

Lemma select_root_Return (g : Q -> Q) (B : Q) (roots : list Q) (Z : Q) :
  select_root g B roots = Return Z -> In Z roots /\ B < Z.
Proof.
  rewrite select_root_filter.
  destruct (List.filter (admissible B) roots) as [|a adm] eqn:Hadm; [done|].
  intros [= <-].
  pose proof (min_energy_root_In g adm a) as Hin.
  rewrite <- Hadm in Hin. apply filter_In in Hin as [Hin Ha].
  split; [done|]. by apply admissible_lt.
Qed.

Lemma select_root_Raise (g : Q -> Q) (B : Q) (roots : list Q) (e : exn) :
  select_root g B roots = Raise e ->
  e = NoPhysicalRootError /\ forall r, In r roots -> ~ B < r.
Proof.
  rewrite select_root_filter.
  destruct (List.filter (admissible B) roots) as [|a adm] eqn:Hadm; [|done].
  intros [= <-]. split; [done|]. intros r Hin Hlt.
  assert (Hf : In r (List.filter (admissible B) roots)).
  { apply filter_In. split; [done|]. by apply admissible_lt. }
  by rewrite Hadm in Hf.
Qed.

(** ** The cubic EOS of the package satisfies the two assumptions *)

Section CubicEosLaws.
Context `{Thermo}.

Lemma eos_config_store e (s : store) : snd (eos_config e s) = s.
Proof.
  unfold eos_config, read_configuration, bind, load.
  destruct (s !! e) as [[| | | |m b|m b]|]; try done;
    destruct (s !! m) as [mo|]; try done;
    destruct (s !! b) as [bo|]; try done;
    destruct mo, bo; done.
Qed.

Lemma eos_config_view e (s : store) v :
  eos_view s e = Some v -> eos_config e s = (configuration_of_view v, s).
Proof.
  unfold eos_view, eos_config, read_configuration, bind, load.
  destruct (s !! e) as [[| | | |m b|m b]|]; try done;
    destruct (s !! m) as [mo|]; try done;
    destruct (s !! b) as [bo|]; try done;
    intros [= <-]; destruct mo, bo; done.
Qed.

Lemma ceos_Z_store e P T z (s : store) :
  snd (ceos_calculate_Z_minimal_energy e P T z s) = s.
Proof.
  unfold ceos_calculate_Z_minimal_energy, bind.
  pose proof (eos_config_store e s) as Hs.
  destruct (eos_config e s) as [[c|x] s1]; simpl in *; by subst.
Qed.

Lemma ceos_fugacity_store e P T z Z (s : store) :
  snd (ceos_calculate_fugacity e P T z Z s) = s.
Proof.
  unfold ceos_calculate_fugacity, bind.
  pose proof (eos_config_store e s) as Hs.
  destruct (eos_config e s) as [[c|x] s1]; simpl in *; by subst.
Qed.

Lemma gibbs_ceos_read_only : @ReadOnlyEos gibbs_ceos.
Proof.
  split; intros; simpl.
  - by rewrite ceos_Z_store.
  - by rewrite ceos_fugacity_store.
Qed.

Lemma gibbs_ceos_deterministic : @DeterministicEos gibbs_ceos.
Proof.
  split; intros until s'; intros Hsome Heq; simpl.
  - destruct Hsome as [v Hv].
    unfold ceos_calculate_Z_minimal_energy, bind.
    rewrite (eos_config_view e s v Hv).
    rewrite (eos_config_view e' s' v) by congruence.
    by destruct (configuration_of_view v).
  - destruct Hsome as [v Hv].
    unfold ceos_calculate_fugacity, bind.
    rewrite (eos_config_view e s v Hv).
    rewrite (eos_config_view e' s' v) by congruence.
    by destruct (configuration_of_view v).
Qed.
End CubicEosLaws.

(** * The claims *)

(** ** The adapters *)

(** C9.  For both adapters, [fugacity(P, T, z)] is [calculate_fugacity(P, T,
    z, Z)] of an EOS instance built from the adapter's [mixture] and [bip],
    where [Z] was first obtained from [calculate_Z_minimal_energy(P, T, z)]
    of an instance built from the same two fields: [PengRobinson78] for
    [NichitaPR], [SoaveRedlichKwong] for [NichitaSRK].  If resolving [Z]
    raises, [calculate_fugacity] is not called and the exception is the
    result.  The EOS methods are assumed read-only on existing objects. *)
Theorem fugacity_feeds_resolved_Z `{CubicEquationOfState} `{!ReadOnlyEos} :
  (forall (s : store) self mixture bip P T z,
     s !! self = Some (ONichitaPR mixture bip) ->
     NichitaPR.fugacity self P T z s
     = (m1 <- PengRobinson78 mixture bip ;;
        Z <- calculate_Z_minimal_energy m1 P T z ;;
        m2 <- PengRobinson78 mixture bip ;;
        calculate_fugacity m2 P T z Z) s)
  /\ (forall (s : store) self mixture bip P T z,
     s !! self = Some (ONichitaSRK mixture bip) ->
     NichitaSRK.fugacity self P T z s
     = (m1 <- SoaveRedlichKwong mixture bip ;;
        Z <- calculate_Z_minimal_energy m1 P T z ;;
        m2 <- SoaveRedlichKwong mixture bip ;;
        calculate_fugacity m2 P T z Z) s).
Proof.
  split; intros s self mixture bip P T z Hs.
  - by apply PR_fugacity_eq.
  - by apply SRK_fugacity_eq.
Qed.

Lemma fugacity_feeds_resolved_Z_witness :
  @NichitaPR.fugacity sample_ceos 3%nat 1 1 [1 # 2; 1 # 2] sample_store
  = (m1 <- PengRobinson78 0%nat 1%nat ;;
     Z <- @calculate_Z_minimal_energy sample_ceos m1 1 1 [1 # 2; 1 # 2] ;;
     m2 <- PengRobinson78 0%nat 1%nat ;;
     @calculate_fugacity sample_ceos m2 1 1 [1 # 2; 1 # 2] Z) sample_store
  /\ @NichitaSRK.fugacity sample_ceos 2%nat 1 1 [1 # 2; 1 # 2] sample_store
  = (m1 <- SoaveRedlichKwong 0%nat 1%nat ;;
     Z <- @calculate_Z_minimal_energy sample_ceos m1 1 1 [1 # 2; 1 # 2] ;;
     m2 <- SoaveRedlichKwong 0%nat 1%nat ;;
     @calculate_fugacity sample_ceos m2 1 1 [1 # 2; 1 # 2] Z) sample_store.
Proof.
  destruct (@fugacity_feeds_resolved_Z sample_ceos
              (@gibbs_ceos_read_only sample_thermo)) as [HPR HSRK].
  split; [apply HPR | apply HSRK]; reflexivity.
Defined.

(** C10.  Neither adapter changes its [mixture] or [bip] field, nor any
    other object that exists when a method is called:
    [number_of_components] leaves the store as it is; the [model] property
    adds one new EOS instance, at an address that was free, configured
    with the adapter's two fields; [calculate_Z] and [fugacity] leave every
    existing object as it was; and inside [fugacity] the instance that
    resolves [Z] and the one that computes the fugacity are two distinct
    objects with the same configuration.  The EOS methods are assumed
    read-only on existing objects. *)
Theorem adapters_leave_state_unchanged `{CubicEquationOfState} `{!ReadOnlyEos} :
  (forall (s : store) self mixture bip P T z,
     s !! self = Some (ONichitaPR mixture bip) ->
     snd (NichitaPR.number_of_components self s) = s
     /\ NichitaPR.model self s
        = (Return (length s), s ++ [OPengRobinson78 mixture bip])
     /\ s !! length s = None
     /\ (forall l o, s !! l = Some o ->
           snd (NichitaPR.calculate_Z self P T z s) !! l = Some o)
     /\ (forall l o, s !! l = Some o ->
           snd (NichitaPR.fugacity self P T z s) !! l = Some o)
     /\ (forall Z s2,
           calculate_Z_minimal_energy (length s) P T z
             (s ++ [OPengRobinson78 mixture bip]) = (Return Z, s2) ->
           s2 !! length s = Some (OPengRobinson78 mixture bip)
           /\ (s2 ++ [OPengRobinson78 mixture bip]) !! length s2
              = Some (OPengRobinson78 mixture bip)
           /\ length s <> length s2
           /\ NichitaPR.fugacity self P T z s
              = calculate_fugacity (length s2) P T z Z
                  (s2 ++ [OPengRobinson78 mixture bip])))
  /\ (forall (s : store) self mixture bip P T z,
     s !! self = Some (ONichitaSRK mixture bip) ->
     snd (NichitaSRK.number_of_components self s) = s
     /\ NichitaSRK.model self s
        = (Return (length s), s ++ [OSoaveRedlichKwong mixture bip])
     /\ s !! length s = None
     /\ (forall l o, s !! l = Some o ->
           snd (NichitaSRK.calculate_Z self P T z s) !! l = Some o)
     /\ (forall l o, s !! l = Some o ->
           snd (NichitaSRK.fugacity self P T z s) !! l = Some o)
     /\ (forall Z s2,
           calculate_Z_minimal_energy (length s) P T z
             (s ++ [OSoaveRedlichKwong mixture bip]) = (Return Z, s2) ->
           s2 !! length s = Some (OSoaveRedlichKwong mixture bip)
           /\ (s2 ++ [OSoaveRedlichKwong mixture bip]) !! length s2
              = Some (OSoaveRedlichKwong mixture bip)
           /\ length s <> length s2
           /\ NichitaSRK.fugacity self P T z s
              = calculate_fugacity (length s2) P T z Z
                  (s2 ++ [OSoaveRedlichKwong mixture bip]))).
Proof.
  split; intros s self mixture bip P T z Hs.
  - split; [apply PR_number_of_components_pure|].
    split; [by apply PR_model_eq|].
    split; [apply lookup_fresh|].
    split; [intros l o Hl; eapply prefix_lookup;
            [apply grows_PR_calculate_Z | exact Hl]|].
    split; [intros l o Hl; eapply prefix_lookup;
            [apply grows_PR_fugacity | exact Hl]|].
    intros Z s2 HZ.
    pose proof (Z_read_only (length s) P T z (s ++ [OPengRobinson78 mixture bip]))
      as Hp.
    rewrite HZ in Hp. simpl in Hp.
    split; [eapply prefix_lookup; [exact Hp | apply lookup_alloc]|].
    split; [apply lookup_alloc|].
    split.
    + apply prefix_length in Hp. rewrite length_app in Hp. simpl in Hp. lia.
    + rewrite (PR_fugacity_eq s self mixture bip P T z Hs).
      unfold bind, PengRobinson78, alloc. by rewrite HZ.
  - split; [apply SRK_number_of_components_pure|].
    split; [by apply SRK_model_eq|].
    split; [apply lookup_fresh|].
    split; [intros l o Hl; eapply prefix_lookup;
            [apply grows_SRK_calculate_Z | exact Hl]|].
    split; [intros l o Hl; eapply prefix_lookup;
            [apply grows_SRK_fugacity | exact Hl]|].
    intros Z s2 HZ.
    pose proof (Z_read_only (length s) P T z
                  (s ++ [OSoaveRedlichKwong mixture bip])) as Hp.
    rewrite HZ in Hp. simpl in Hp.
    split; [eapply prefix_lookup; [exact Hp | apply lookup_alloc]|].
    split; [apply lookup_alloc|].
    split.
    + apply prefix_length in Hp. rewrite length_app in Hp. simpl in Hp. lia.
    + rewrite (SRK_fugacity_eq s self mixture bip P T z Hs).
      unfold bind, SoaveRedlichKwong, alloc. by rewrite HZ.
Qed.

(** The assumption cannot be dropped: the adapter and the EOS instance
    refer to the same mixture, so a write by an EOS method is seen through
    the adapter. *)
Lemma read_only_assumption_needed :
  fst (NichitaPR.number_of_components 3%nat sample_store) = Return 2%nat
  /\ fst (NichitaPR.number_of_components 3%nat
            (snd (@NichitaPR.calculate_Z writing_ceos 3%nat 1 1 [1 # 2; 1 # 2]
                    sample_store))) = Return 0%nat.
Proof. split; reflexivity. Qed.

Lemma adapters_leave_state_unchanged_witness :
  sample_store !! 3%nat = Some (ONichitaPR 0%nat 1%nat)
  /\ sample_store !! 2%nat = Some (ONichitaSRK 0%nat 1%nat)
  /\ snd (NichitaPR.number_of_components 3%nat sample_store) = sample_store
  /\ snd (NichitaSRK.number_of_components 2%nat sample_store) = sample_store
  /\ snd (@NichitaPR.fugacity sample_ceos 3%nat 1 1 [1 # 2; 1 # 2] sample_store)
       !! 3%nat = Some (ONichitaPR 0%nat 1%nat)
  /\ snd (@NichitaSRK.fugacity sample_ceos 2%nat 1 1 [1 # 2; 1 # 2] sample_store)
       !! 2%nat = Some (ONichitaSRK 0%nat 1%nat)
  /\ snd (@NichitaPR.calculate_Z sample_ceos 3%nat 1 1 [1 # 2; 1 # 2] sample_store)
       !! 0%nat = sample_store !! 0%nat
  /\ snd (@NichitaSRK.calculate_Z sample_ceos 2%nat 1 1 [1 # 2; 1 # 2] sample_store)
       !! 1%nat = sample_store !! 1%nat.
Proof.
  destruct (@adapters_leave_state_unchanged sample_ceos
              (@gibbs_ceos_read_only sample_thermo)) as [HPR HSRK].
  destruct (HPR sample_store 3%nat 0%nat 1%nat 1 1 [1 # 2; 1 # 2] eq_refl)
    as (Hn & _ & _ & HZ & Hf & _).
  destruct (HSRK sample_store 2%nat 0%nat 1%nat 1 1 [1 # 2; 1 # 2] eq_refl)
    as (Hn' & _ & _ & HZ' & Hf' & _).
  split; [reflexivity|]. split; [reflexivity|].
  split; [exact Hn|]. split; [exact Hn'|].
  split; [apply Hf; reflexivity|]. split; [apply Hf'; reflexivity|].
  split; [apply HZ; reflexivity | apply HZ'; reflexivity].
Defined.

(** ** The stability test *)

Lemma Qlt_bool_iff (x y : Q) : Qlt_bool x y = true <-> x < y.
Proof. apply admissible_lt. Qed.

Lemma tol_sum_pos : 0 < tol_sum.
Proof. reflexivity. Qed.

Lemma certifies_instability_iff (Y : ndarray) :
  certifies_instability Y = true <-> 1 + tol_sum <= sumQ Y.
Proof.
  unfold certifies_instability. rewrite andb_true_iff, negb_true_iff.
  rewrite Qlt_bool_iff. pose proof tol_sum_pos as Htol.
  split.
  - intros [Hgt Hnot].
    assert (Habs : Qabs (sumQ Y - 1) == sumQ Y - 1) by (apply Qabs_pos; lra).
    destruct (Qlt_le_dec (sumQ Y) (1 + tol_sum)) as [Hlt|Hle]; [|done].
    assert (Hin : Qlt_bool (Qabs (sumQ Y - 1)) tol_sum = true).
    { apply Qlt_bool_iff. rewrite Habs. lra. }
    congruence.
  - intros Hle. split; [lra|].
    assert (Habs : Qabs (sumQ Y - 1) == sumQ Y - 1) by (apply Qabs_pos; lra).
    destruct (Qlt_bool (Qabs (sumQ Y - 1)) tol_sum) eqn:Hb; [|done].
    apply Qlt_bool_iff in Hb. rewrite Habs in Hb. lra.
Qed.

Lemma verdict_iff (trials : list trial) :
  verdict trials = true
  <-> exists Y, In (Stationary Y) trials /\ 1 + tol_sum <= sumQ Y.
Proof.
  unfold verdict. rewrite existsb_exists. split.
  - intros ([| |Y] & Hin & Hu); try done.
    exists Y. split; [done|]. by apply certifies_instability_iff.
  - intros (Y & Hin & Hle). exists (Stationary Y).
    split; [done|]. by apply certifies_instability_iff.
Qed.

Lemma verdict_false (trials : list trial) :
  (forall Y, In (Stationary Y) trials -> sumQ Y < 1 + tol_sum) ->
  verdict trials = false.
Proof.
  intros Hall. destruct (verdict trials) eqn:Hv; [|done].
  apply verdict_iff in Hv as (Y & Hin & Hle).
  specialize (Hall Y Hin). lra.
Qed.

(** ** The cubic equation of state *)

Section CubicEosClaims.
Context `{Thermo}.

Lemma ceos_Z_eq e (s : store) c P T z :
  eos_config e s = (Return c, s) ->
  ceos_calculate_Z_minimal_energy e P T z s
  = (select_root (root_energy c P T z) (eos_B c P T z) (cubic_roots c P T z), s).
Proof.
  intros Hc. unfold ceos_calculate_Z_minimal_energy, bind. by rewrite Hc.
Qed.

Lemma ceos_Z_no_root e (s : store) v c P T z :
  eos_view s e = Some v ->
  configuration_of_view v = Return c ->
  (forall r, In r (cubic_roots c P T z) -> ~ eos_B c P T z < r) ->
  ceos_calculate_Z_minimal_energy e P T z s = (Raise NoPhysicalRootError, s).
Proof.
  intros Hv Hc Hno.
  rewrite (ceos_Z_eq e s c) by (by rewrite (eos_config_view e s v Hv), Hc).
  by rewrite select_root_none.
Qed.

(** A returned [Z] is always one of the real roots and above [B]: no root
    is picked when none is admissible. *)
Lemma ceos_Z_Return_admissible e (s s' : store) c P T z Z :
  eos_config e s = (Return c, s) ->
  ceos_calculate_Z_minimal_energy e P T z s = (Return Z, s') ->
  In Z (cubic_roots c P T z) /\ eos_B c P T z < Z.
Proof.
  intros Hc. rewrite (ceos_Z_eq e s c P T z Hc). intros [= Hsel _].
  by apply select_root_Return in Hsel.
Qed.

(** The only exception root selection raises is [NoPhysicalRootError], and
    only when no real root is above [B]. *)
Lemma ceos_Z_Raise_no_root e (s s' : store) c P T z x :
  eos_config e s = (Return c, s) ->
  ceos_calculate_Z_minimal_energy e P T z s = (Raise x, s') ->
  x = NoPhysicalRootError
  /\ forall r, In r (cubic_roots c P T z) -> ~ eos_B c P T z < r.
Proof.
  intros Hc. rewrite (ceos_Z_eq e s c P T z Hc). intros [= Hsel _].
  by apply select_root_Raise in Hsel.
Qed.
End CubicEosClaims.

(** * Further properties of the adapters *)

Lemma gibbs_ceos_store_preserving `{Thermo} : @StorePreservingEos gibbs_ceos.
Proof.
  split; intros; simpl.
  - apply ceos_Z_store.
  - apply ceos_fugacity_store.
Qed.

(** X1.  The adapters handle no exception and post-process no value,
    whatever the EOS does.  If resolving [Z] raises, [calculate_Z] and
    [fugacity] raise the same exception and the store is the one the EOS
    call left: no second instance is built and [calculate_fugacity] is not
    called.  If [Z] is resolved, [fugacity] ends exactly as
    [calculate_fugacity] ends on an instance built from the fields the
    adapter has at that moment, whether it returns or raises. *)
Theorem adapters_are_transparent `{CubicEquationOfState} :
  (forall (s s2 : store) self mixture bip P T z e,
     s !! self = Some (ONichitaPR mixture bip) ->
     calculate_Z_minimal_energy (length s) P T z
       (s ++ [OPengRobinson78 mixture bip]) = (Raise e, s2) ->
     NichitaPR.calculate_Z self P T z s = (Raise e, s2)
     /\ NichitaPR.fugacity self P T z s = (Raise e, s2))
  /\ (forall (s s2 : store) self mixture bip mixture' bip' P T z Z,
     s !! self = Some (ONichitaPR mixture bip) ->
     calculate_Z_minimal_energy (length s) P T z
       (s ++ [OPengRobinson78 mixture bip]) = (Return Z, s2) ->
     s2 !! self = Some (ONichitaPR mixture' bip') ->
     NichitaPR.calculate_Z self P T z s = (Return Z, s2)
     /\ NichitaPR.fugacity self P T z s
        = calculate_fugacity (length s2) P T z Z
            (s2 ++ [OPengRobinson78 mixture' bip']))
  /\ (forall (s s2 : store) self mixture bip P T z e,
     s !! self = Some (ONichitaSRK mixture bip) ->
     calculate_Z_minimal_energy (length s) P T z
       (s ++ [OSoaveRedlichKwong mixture bip]) = (Raise e, s2) ->
     NichitaSRK.calculate_Z self P T z s = (Raise e, s2)
     /\ NichitaSRK.fugacity self P T z s = (Raise e, s2))
  /\ (forall (s s2 : store) self mixture bip mixture' bip' P T z Z,
     s !! self = Some (ONichitaSRK mixture bip) ->
     calculate_Z_minimal_energy (length s) P T z
       (s ++ [OSoaveRedlichKwong mixture bip]) = (Return Z, s2) ->
     s2 !! self = Some (ONichitaSRK mixture' bip') ->
     NichitaSRK.calculate_Z self P T z s = (Return Z, s2)
     /\ NichitaSRK.fugacity self P T z s
        = calculate_fugacity (length s2) P T z Z
            (s2 ++ [OSoaveRedlichKwong mixture' bip'])).
Proof.
  split; [|split; [|split]].
  - intros s s2 self mixture bip P T z e Hs HZ.
    pose proof (PR_calculate_Z_eq s self mixture bip P T z Hs) as Hcz.
    rewrite HZ in Hcz. split; [exact Hcz|].
    unfold NichitaPR.fugacity, bind at 1. by rewrite Hcz.
  - intros s s2 self mixture bip mixture' bip' P T z Z Hs HZ Hs2.
    pose proof (PR_calculate_Z_eq s self mixture bip P T z Hs) as Hcz.
    rewrite HZ in Hcz. split; [exact Hcz|].
    unfold NichitaPR.fugacity, bind at 1. rewrite Hcz.
    unfold bind. by rewrite (PR_model_eq s2 self mixture' bip' Hs2).
  - intros s s2 self mixture bip P T z e Hs HZ.
    pose proof (SRK_calculate_Z_eq s self mixture bip P T z Hs) as Hcz.
    rewrite HZ in Hcz. split; [exact Hcz|].
    unfold NichitaSRK.fugacity, bind at 1. by rewrite Hcz.
  - intros s s2 self mixture bip mixture' bip' P T z Z Hs HZ Hs2.
    pose proof (SRK_calculate_Z_eq s self mixture bip P T z Hs) as Hcz.
    rewrite HZ in Hcz. split; [exact Hcz|].
    unfold NichitaSRK.fugacity, bind at 1. rewrite Hcz.
    unfold bind. by rewrite (SRK_model_eq s2 self mixture' bip' Hs2).
Qed.

Lemma adapters_are_transparent_witness :
  @NichitaPR.calculate_Z sample_ceos 3%nat 6 1 [1 # 2; 1 # 2] sample_store
  = (Raise NoPhysicalRootError, sample_store ++ [OPengRobinson78 0%nat 1%nat])
  /\ @NichitaPR.fugacity sample_ceos 3%nat 6 1 [1 # 2; 1 # 2] sample_store
     = (Raise NoPhysicalRootError, sample_store ++ [OPengRobinson78 0%nat 1%nat])
  /\ @NichitaSRK.calculate_Z sample_ceos 2%nat 1 1 [1 # 2; 1 # 2] sample_store
     = (Return (1 # 4), sample_store ++ [OSoaveRedlichKwong 0%nat 1%nat])
  /\ @NichitaSRK.fugacity sample_ceos 2%nat 1 1 [1 # 2; 1 # 2] sample_store
     = @calculate_fugacity sample_ceos 5%nat 1 1 [1 # 2; 1 # 2] (1 # 4)
         (sample_store ++ [OSoaveRedlichKwong 0%nat 1%nat]
                       ++ [OSoaveRedlichKwong 0%nat 1%nat]).
Proof.
  destruct (@adapters_are_transparent sample_ceos) as (Hraise & _ & _ & Hret).
  assert (HZ6 : @calculate_Z_minimal_energy sample_ceos (length sample_store) 6 1
                  [1 # 2; 1 # 2] (sample_store ++ [OPengRobinson78 0%nat 1%nat])
                = (Raise NoPhysicalRootError,
                   sample_store ++ [OPengRobinson78 0%nat 1%nat]))
    by (vm_compute; reflexivity).
  assert (HZ1 : @calculate_Z_minimal_energy sample_ceos (length sample_store) 1 1
                  [1 # 2; 1 # 2] (sample_store ++ [OSoaveRedlichKwong 0%nat 1%nat])
                = (Return (1 # 4),
                   sample_store ++ [OSoaveRedlichKwong 0%nat 1%nat]))
    by (vm_compute; reflexivity).
  destruct (Hraise sample_store _ 3%nat 0%nat 1%nat 6 1 [1 # 2; 1 # 2]
              NoPhysicalRootError eq_refl HZ6) as [Ha Hb].
  destruct (Hret sample_store _ 2%nat 0%nat 1%nat 0%nat 1%nat 1 1 [1 # 2; 1 # 2]
              (1 # 4) eq_refl HZ1 eq_refl) as [Hc Hd].
  split; [exact Ha|]. split; [exact Hb|]. split; [exact Hc|]. exact Hd.
Defined.

(** X2.  The [model] property is not cached: with an EOS that leaves the
    store alone, [calculate_Z] leaves exactly one new EOS instance behind,
    [fugacity] two when [Z] is resolved and one when resolving [Z] raises,
    and two accesses of [model] give two distinct instances configured
    alike. *)
Theorem every_access_builds_an_instance `{CubicEquationOfState}
    `{!StorePreservingEos} :
  (forall (s : store) self mixture bip P T z,
     s !! self = Some (ONichitaPR mixture bip) ->
     snd (NichitaPR.calculate_Z self P T z s)
     = s ++ [OPengRobinson78 mixture bip]
     /\ snd (NichitaPR.fugacity self P T z s)
        = match fst (NichitaPR.calculate_Z self P T z s) with
          | Return _ =>
              s ++ [OPengRobinson78 mixture bip; OPengRobinson78 mixture bip]
          | Raise _ => s ++ [OPengRobinson78 mixture bip]
          end
     /\ (m1 <- NichitaPR.model self ;; m2 <- NichitaPR.model self ;;
         ret (m1, m2)) s
        = (Return (length s, S (length s)),
           s ++ [OPengRobinson78 mixture bip; OPengRobinson78 mixture bip]))
  /\ (forall (s : store) self mixture bip P T z,
     s !! self = Some (ONichitaSRK mixture bip) ->
     snd (NichitaSRK.calculate_Z self P T z s)
     = s ++ [OSoaveRedlichKwong mixture bip]
     /\ snd (NichitaSRK.fugacity self P T z s)
        = match fst (NichitaSRK.calculate_Z self P T z s) with
          | Return _ =>
              s ++ [OSoaveRedlichKwong mixture bip; OSoaveRedlichKwong mixture bip]
          | Raise _ => s ++ [OSoaveRedlichKwong mixture bip]
          end
     /\ (m1 <- NichitaSRK.model self ;; m2 <- NichitaSRK.model self ;;
         ret (m1, m2)) s
        = (Return (length s, S (length s)),
           s ++ [OSoaveRedlichKwong mixture bip; OSoaveRedlichKwong mixture bip])).
Proof.
  split; intros s self mixture bip P T z Hs.
  - pose proof (PR_calculate_Z_eq s self mixture bip P T z Hs) as Hcz.
    pose proof (Z_preserves (length s) P T z (s ++ [OPengRobinson78 mixture bip]))
      as Hkeep.
    assert (Hs1 : (s ++ [OPengRobinson78 mixture bip]) !! self
                  = Some (ONichitaPR mixture bip)) by by apply lookup_alloc_old.
    split; [by rewrite Hcz|]. split.
    + unfold NichitaPR.fugacity, bind at 1. rewrite Hcz.
      destruct (calculate_Z_minimal_energy _ _ _ _ _) as [[Z|e] s2];
        simpl in *; subst s2; [|done].
      unfold bind. rewrite (PR_model_eq _ self mixture bip Hs1).
      rewrite fugacity_preserves. by rewrite <- app_assoc.
    + unfold bind. rewrite (PR_model_eq s self mixture bip Hs).
      rewrite (PR_model_eq _ self mixture bip Hs1). unfold ret.
      rewrite length_app, <- app_assoc. simpl. by rewrite Nat.add_1_r.
  - pose proof (SRK_calculate_Z_eq s self mixture bip P T z Hs) as Hcz.
    pose proof (Z_preserves (length s) P T z
                  (s ++ [OSoaveRedlichKwong mixture bip])) as Hkeep.
    assert (Hs1 : (s ++ [OSoaveRedlichKwong mixture bip]) !! self
                  = Some (ONichitaSRK mixture bip)) by by apply lookup_alloc_old.
    split; [by rewrite Hcz|]. split.
    + unfold NichitaSRK.fugacity, bind at 1. rewrite Hcz.
      destruct (calculate_Z_minimal_energy _ _ _ _ _) as [[Z|e] s2];
        simpl in *; subst s2; [|done].
      unfold bind. rewrite (SRK_model_eq _ self mixture bip Hs1).
      rewrite fugacity_preserves. by rewrite <- app_assoc.
    + unfold bind. rewrite (SRK_model_eq s self mixture bip Hs).
      rewrite (SRK_model_eq _ self mixture bip Hs1). unfold ret.
      rewrite length_app, <- app_assoc. simpl. by rewrite Nat.add_1_r.
Qed.

Lemma every_access_builds_an_instance_witness :
  snd (@NichitaPR.fugacity sample_ceos 3%nat 1 1 [1 # 2; 1 # 2] sample_store)
  = sample_store ++ [OPengRobinson78 0%nat 1%nat; OPengRobinson78 0%nat 1%nat]
  /\ snd (@NichitaSRK.fugacity sample_ceos 2%nat 6 1 [1 # 2; 1 # 2] sample_store)
     = sample_store ++ [OSoaveRedlichKwong 0%nat 1%nat]
  /\ snd (@NichitaSRK.calculate_Z sample_ceos 2%nat 1 1 [1 # 2; 1 # 2] sample_store)
     = sample_store ++ [OSoaveRedlichKwong 0%nat 1%nat].
Proof.
  destruct (@every_access_builds_an_instance sample_ceos
              (@gibbs_ceos_store_preserving sample_thermo)) as [HPR HSRK].
  destruct (HPR sample_store 3%nat 0%nat 1%nat 1 1 [1 # 2; 1 # 2] eq_refl)
    as (_ & Hf & _).
  destruct (HSRK sample_store 2%nat 0%nat 1%nat 6 1 [1 # 2; 1 # 2] eq_refl)
    as (_ & Hf' & _).
  destruct (HSRK sample_store 2%nat 0%nat 1%nat 1 1 [1 # 2; 1 # 2] eq_refl)
    as (HZ & _ & _).
  split; [exact Hf|]. split; [exact Hf' | exact HZ].
Defined.

Section AdapterValues.
Context `{CubicEquationOfState} `{!ReadOnlyEos} `{!DeterministicEos}.

Lemma adapter_calculate_Z_agree (s s' : store) self self' pr m k P T z :
  adapter_view s self = Some (pr, m, k) ->
  adapter_view s' self' = Some (pr, m, k) ->
  fst (adapter_calculate_Z pr self P T z s)
  = fst (adapter_calculate_Z pr self' P T z s').
Proof.
  intros Hv Hv'.
  destruct (adapter_view_inv s self pr m k Hv) as (mx & bp & Hs & Hm & Hk).
  destruct (adapter_view_inv s' self' pr m k Hv') as (mx' & bp' & Hs' & Hm' & Hk').
  destruct pr; simpl.
  - rewrite (PR_calculate_Z_eq s self mx bp P T z Hs).
    rewrite (PR_calculate_Z_eq s' self' mx' bp' P T z Hs').
    pose proof (eos_view_alloc_PR s mx bp m k Hm Hk) as He.
    pose proof (eos_view_alloc_PR s' mx' bp' m k Hm' Hk') as He'.
    apply Z_deterministic; [by eexists | congruence].
  - rewrite (SRK_calculate_Z_eq s self mx bp P T z Hs).
    rewrite (SRK_calculate_Z_eq s' self' mx' bp' P T z Hs').
    pose proof (eos_view_alloc_SRK s mx bp m k Hm Hk) as He.
    pose proof (eos_view_alloc_SRK s' mx' bp' m k Hm' Hk') as He'.
    apply Z_deterministic; [by eexists | congruence].
Qed.

Lemma adapter_fugacity_agree (s s' : store) self self' pr m k P T z :
  adapter_view s self = Some (pr, m, k) ->
  adapter_view s' self' = Some (pr, m, k) ->
  fst (adapter_fugacity pr self P T z s)
  = fst (adapter_fugacity pr self' P T z s').
Proof.
  intros Hv Hv'.
  destruct (adapter_view_inv s self pr m k Hv) as (mx & bp & Hs & Hm & Hk).
  destruct (adapter_view_inv s' self' pr m k Hv') as (mx' & bp' & Hs' & Hm' & Hk').
  destruct pr; simpl.
  - eapply PR_fugacity_agree; eauto.
  - eapply SRK_fugacity_agree; eauto.
Qed.

Lemma grows_adapter_calculate_Z pr self P T z :
  grows (adapter_calculate_Z pr self P T z).
Proof.
  destruct pr; [apply grows_PR_calculate_Z | apply grows_SRK_calculate_Z].
Qed.

Lemma grows_adapter_fugacity pr self P T z :
  grows (adapter_fugacity pr self P T z).
Proof.
  destruct pr; [apply grows_PR_fugacity | apply grows_SRK_fugacity].
Qed.
End AdapterValues.

(** X3.  With a read-only, deterministic EOS, what [calculate_Z] and
    [fugacity] return depends only on the class of the adapter and on the
    contents of its mixture and interaction matrix: two adapters configured
    alike, even distinct objects in different stores, return the same, and
    an adapter returns the same whatever call of [fugacity] or
    [calculate_Z] was made before, on itself or on any other adapter (such
    as the one of the previous feed, which shares the matrix): each of
    [fugacity] and [calculate_Z] after each of the two. *)
Theorem adapter_values_depend_on_configuration `{CubicEquationOfState}
    `{!ReadOnlyEos} `{!DeterministicEos} (s s' : store) self self' pr m k P T z :
  adapter_view s self = Some (pr, m, k) ->
  adapter_view s' self' = Some (pr, m, k) ->
  fst (adapter_calculate_Z pr self P T z s)
  = fst (adapter_calculate_Z pr self' P T z s')
  /\ fst (adapter_fugacity pr self P T z s)
     = fst (adapter_fugacity pr self' P T z s')
  /\ (forall pr' other P' T' z',
        fst (adapter_fugacity pr self P T z
               (snd (adapter_fugacity pr' other P' T' z' s)))
        = fst (adapter_fugacity pr self P T z s)
        /\ fst (adapter_fugacity pr self P T z
                  (snd (adapter_calculate_Z pr' other P' T' z' s)))
           = fst (adapter_fugacity pr self P T z s)
        /\ fst (adapter_calculate_Z pr self P T z
                  (snd (adapter_fugacity pr' other P' T' z' s)))
           = fst (adapter_calculate_Z pr self P T z s)
        /\ fst (adapter_calculate_Z pr self P T z
                  (snd (adapter_calculate_Z pr' other P' T' z' s)))
           = fst (adapter_calculate_Z pr self P T z s)).
Proof.
  intros Hv Hv'.
  split; [by eapply adapter_calculate_Z_agree|].
  split; [by eapply adapter_fugacity_agree|].
  intros pr' other P' T' z'.
  assert (Hf : adapter_view (snd (adapter_fugacity pr' other P' T' z' s)) self
               = Some (pr, m, k)).
  { eapply adapter_view_prefix; [apply grows_adapter_fugacity | exact Hv]. }
  assert (Hz : adapter_view (snd (adapter_calculate_Z pr' other P' T' z' s)) self
               = Some (pr, m, k)).
  { eapply adapter_view_prefix; [apply grows_adapter_calculate_Z | exact Hv]. }
  split; [by eapply adapter_fugacity_agree|].
  split; [by eapply adapter_fugacity_agree|].
  split; by eapply adapter_calculate_Z_agree.
Qed.

Lemma adapter_values_depend_on_configuration_witness :
  fst (@NichitaSRK.calculate_Z sample_ceos 2%nat 1 1 [1 # 2; 1 # 2] sample_store)
  = fst (@NichitaSRK.calculate_Z sample_ceos 3%nat 1 1 [1 # 2; 1 # 2]
           sample_store_reordered)
  /\ fst (@NichitaSRK.fugacity sample_ceos 2%nat 1 1 [1 # 2; 1 # 2] sample_store)
     = fst (@NichitaSRK.fugacity sample_ceos 3%nat 1 1 [1 # 2; 1 # 2]
              sample_store_reordered)
  /\ fst (@NichitaSRK.fugacity sample_ceos 2%nat 1 1 [1 # 2; 1 # 2]
            (snd (@NichitaPR.fugacity sample_ceos 3%nat 6 1 [1 # 3; 2 # 3]
                    sample_store)))
     = fst (@NichitaSRK.fugacity sample_ceos 2%nat 1 1 [1 # 2; 1 # 2] sample_store)
  /\ fst (@NichitaSRK.calculate_Z sample_ceos 2%nat 1 1 [1 # 2; 1 # 2]
            (snd (@NichitaSRK.calculate_Z sample_ceos 2%nat 6 1 [1 # 3; 2 # 3]
                    sample_store)))
     = fst (@NichitaSRK.calculate_Z sample_ceos 2%nat 1 1 [1 # 2; 1 # 2]
              sample_store).
Proof.
  destruct (@adapter_values_depend_on_configuration sample_ceos
              (@gibbs_ceos_read_only sample_thermo)
              (@gibbs_ceos_deterministic sample_thermo)
              sample_store sample_store_reordered 2%nat 3%nat false
              (OMixture [1 # 2; 1 # 2] [125 # 24; 125 # 24] [125 # 2; 125 # 2]
                 [1 # 100; 1 # 10])
              (OMatrix [[0; 8 # 100]; [8 # 100; 0]])
              1 1 [1 # 2; 1 # 2] eq_refl eq_refl) as (HZ & Hf & Hhist).
  split; [exact HZ|]. split; [exact Hf|].
  split; [exact (proj1 (Hhist true 3%nat 6 1 [1 # 3; 2 # 3]))|].
  exact (proj2 (proj2 (proj2 (Hhist false 2%nat 6 1 [1 # 3; 2 # 3])))).
Defined.

Lemma adapter_view_alloc_PR (s : store) mixture bip m k :
  s !! mixture = Some m -> s !! bip = Some k ->
  adapter_view (s ++ [ONichitaPR mixture bip]) (length s) = Some (true, m, k).
Proof.
  intros Hm Hk. unfold adapter_view. rewrite lookup_alloc.
  by rewrite (lookup_alloc_old s m _ mixture Hm), (lookup_alloc_old s k _ bip Hk).
Qed.

Lemma adapter_view_alloc_SRK (s : store) mixture bip m k :
  s !! mixture = Some m -> s !! bip = Some k ->
  adapter_view (s ++ [ONichitaSRK mixture bip]) (length s) = Some (false, m, k).
Proof.
  intros Hm Hk. unfold adapter_view. rewrite lookup_alloc.
  by rewrite (lookup_alloc_old s m _ mixture Hm), (lookup_alloc_old s k _ bip Hk).
Qed.

Lemma PR_number_of_components_alloc (s : store) mixture bip m :
  s !! mixture = Some m ->
  NichitaPR.number_of_components (length s) (s ++ [ONichitaPR mixture bip])
  = (match m with
     | OMixture z _ _ _ => Return (length z)
     | _ => Raise AttributeError
     end, s ++ [ONichitaPR mixture bip]).
Proof.
  intros Hm. unfold NichitaPR.number_of_components, bind, load.
  rewrite lookup_alloc, (lookup_alloc_old s m _ mixture Hm). by destruct m.
Qed.

Lemma SRK_number_of_components_alloc (s : store) mixture bip m :
  s !! mixture = Some m ->
  NichitaSRK.number_of_components (length s) (s ++ [ONichitaSRK mixture bip])
  = (match m with
     | OMixture z _ _ _ => Return (length z)
     | _ => Raise AttributeError
     end, s ++ [ONichitaSRK mixture bip]).
Proof.
  intros Hm. unfold NichitaSRK.number_of_components, bind, load.
  rewrite lookup_alloc, (lookup_alloc_old s m _ mixture Hm). by destruct m.
Qed.

(** X4.  Building an adapter never fails and checks nothing: the new
    object holds the two references it was given and every existing object
    stays as it was.  Over a mixture and a matrix the adapter is configured
    with exactly these two, [number_of_components] is the length of the
    mixture's [z], and the EOS instance that [model] builds sees what the
    adapter sees.  Over something that is not a mixture (here a matrix)
    construction still succeeds and [number_of_components] raises
    [AttributeError] without changing the store. *)
Theorem constructed_adapter_is_configured :
  (forall (s : store) mixture bip,
     new_NichitaPR mixture bip s
     = (Return (length s), s ++ [ONichitaPR mixture bip])
     /\ new_NichitaSRK mixture bip s
        = (Return (length s), s ++ [ONichitaSRK mixture bip])
     /\ forall l o o', s !! l = Some o -> (s ++ [o']) !! l = Some o)
  /\ (forall (s : store) mixture bip z Tc Pc omega rows,
     s !! mixture = Some (OMixture z Tc Pc omega) ->
     s !! bip = Some (OMatrix rows) ->
     let self := length s in
     let pr := snd (new_NichitaPR mixture bip s) in
     let srk := snd (new_NichitaSRK mixture bip s) in
     adapter_view pr self = Some (true, OMixture z Tc Pc omega, OMatrix rows)
     /\ adapter_view srk self = Some (false, OMixture z Tc Pc omega, OMatrix rows)
     /\ NichitaPR.number_of_components self pr = (Return (length z), pr)
     /\ NichitaSRK.number_of_components self srk = (Return (length z), srk)
     /\ fst (NichitaPR.model self pr) = Return (S self)
     /\ eos_view (snd (NichitaPR.model self pr)) (S self) = adapter_view pr self
     /\ fst (NichitaSRK.model self srk) = Return (S self)
     /\ eos_view (snd (NichitaSRK.model self srk)) (S self) = adapter_view srk self)
  /\ (forall (s : store) mixture bip rows,
     s !! mixture = Some (OMatrix rows) ->
     let self := length s in
     let pr := snd (new_NichitaPR mixture bip s) in
     let srk := snd (new_NichitaSRK mixture bip s) in
     NichitaPR.number_of_components self pr = (Raise AttributeError, pr)
     /\ NichitaSRK.number_of_components self srk = (Raise AttributeError, srk)).
Proof.
  split; [|split].
  - intros s mixture bip. split; [done|]. split; [done|].
    intros l o o' Hl. by apply lookup_alloc_old.
  - intros s mixture bip z Tc Pc omega rows Hm Hk. cbv zeta.
    unfold new_NichitaPR, new_NichitaSRK, alloc. simpl snd.
    rewrite (adapter_view_alloc_PR s mixture bip _ _ Hm Hk).
    rewrite (adapter_view_alloc_SRK s mixture bip _ _ Hm Hk).
    rewrite (PR_number_of_components_alloc s mixture bip _ Hm).
    rewrite (SRK_number_of_components_alloc s mixture bip _ Hm).
    rewrite (PR_model_eq (s ++ [ONichitaPR mixture bip]) (length s) mixture bip)
      by apply lookup_alloc.
    rewrite (SRK_model_eq (s ++ [ONichitaSRK mixture bip]) (length s) mixture bip)
      by apply lookup_alloc.
    simpl fst. simpl snd.
    assert (Hlp : length (s ++ [ONichitaPR mixture bip]) = S (length s))
      by (rewrite length_app; simpl; lia).
    assert (Hls : length (s ++ [ONichitaSRK mixture bip]) = S (length s))
      by (rewrite length_app; simpl; lia).
    split; [done|]. split; [done|]. split; [done|]. split; [done|].
    split; [by rewrite Hlp|]. split.
    { rewrite <- Hlp. apply eos_view_alloc_PR; by apply lookup_alloc_old. }
    split; [by rewrite Hls|].
    rewrite <- Hls. apply eos_view_alloc_SRK; by apply lookup_alloc_old.
  - intros s mixture bip rows Hm. cbv zeta.
    unfold new_NichitaPR, new_NichitaSRK, alloc. simpl snd.
    rewrite (PR_number_of_components_alloc s mixture bip _ Hm).
    by rewrite (SRK_number_of_components_alloc s mixture bip _ Hm).
Qed.

Lemma constructed_adapter_is_configured_witness :
  NichitaSRK.number_of_components 4%nat
    (snd (new_NichitaSRK 0%nat 1%nat sample_store))
  = (Return 2%nat, snd (new_NichitaSRK 0%nat 1%nat sample_store))
  /\ NichitaPR.number_of_components 4%nat
       (snd (new_NichitaPR 1%nat 1%nat sample_store))
     = (Raise AttributeError, snd (new_NichitaPR 1%nat 1%nat sample_store)).
Proof.
  destruct constructed_adapter_is_configured as (_ & Hok & Hbad).
  destruct (Hok sample_store 0%nat 1%nat _ _ _ _ _ eq_refl eq_refl)
    as (_ & _ & _ & Hn & _).
  destruct (Hbad sample_store 1%nat 1%nat _ eq_refl) as [Hr _].
  split; [exact Hn | exact Hr].
Defined.

(** * The verdict of the stability test *)




Section Trials.
Context `{CubicEquationOfState} `{StabilitySettings}.



Lemma run_trials_length model P T z lpf seeds (s s' : store) trials :
  run_trials model P T z lpf seeds s = (Return trials, s') ->
  length trials = length seeds.
Proof.
  revert s trials. induction seeds as [|y0 rest IH]; intros s trials; simpl.
  - by intros [= <- _].
  - unfold bind.
    destruct (iterate_trial model P T z lpf max_iterations y0 s)
      as [[t|e] s1]; [|done].
    destruct (run_trials model P T z lpf rest s1) as [[ts|e] s2] eqn:Hts; [|done].
    intros [= <- <-]. simpl. f_equal. by eapply IH.
Qed.


Lemma stability_trials_single model P T z (s s' : store) trials :
  stability_trials model P T z s = (Return trials, s') ->
  length z = 1%nat -> trials = [].
Proof.
  unfold stability_trials, bind. intros Hrun Hlen.
  destruct (model_fugacity model P T z s) as [[f|e] s1]; [|done].
  apply Nat.eqb_eq in Hlen. rewrite Hlen in Hrun. by injection Hrun as <- _.
Qed.
End Trials.



(** * A missing physical root is fatal *)

Section ErrorPropagation.
Context `{CubicEquationOfState} `{StabilitySettings}.

(** An exception of the EOS at a composition a trial evaluates is the
    outcome of the trial. *)
Lemma trial_evaluates_raise model P T z lpf fuel Y (s s' : store) y e :
  trial_evaluates model P T z lpf fuel Y s y s' ->
  fst (model_fugacity model P T y s') = Raise e ->
  fst (iterate_trial model P T z lpf fuel Y s) = Raise e.
Proof.
  induction 1 as [fuel Y s|fuel Y s f s1 y s' Hf Hconv _ IH]; intros Hraise;
    simpl; unfold bind.
  - destruct (model_fugacity model P T (normalize Y) s) as [r s1].
    simpl in Hraise. by subst r.
  - rewrite Hf, Hconv. by apply IH.
Qed.

Lemma trials_evaluate_raise model P T z lpf seeds (s s' : store) y e :
  trials_evaluate model P T z lpf seeds s y s' ->
  fst (model_fugacity model P T y s') = Raise e ->
  fst (run_trials model P T z lpf seeds s) = Raise e.
Proof.
  induction 1 as [y0 rest s y s' Ht|y0 rest s t s1 y s' Ht _ IH]; intros Hraise;
    simpl; unfold bind.
  - pose proof (trial_evaluates_raise _ _ _ _ _ _ _ _ _ _ _ Ht Hraise) as Hit.
    destruct (iterate_trial model P T z lpf max_iterations y0 s) as [r s1].
    simpl in Hit. by subst r.
  - rewrite Ht. specialize (IH Hraise).
    destruct (run_trials model P T z lpf rest s1) as [r s2].
    simpl in IH. by subst r.
Qed.

Lemma evaluates_raise model P T z (s s' : store) y e :
  valid_composition z = true ->
  evaluates model P T z s y s' ->
  fst (model_fugacity model P T y s') = Raise e ->
  fst (stability_test model P T z s) = Raise e.
Proof.
  intros Hvalid Hev Hraise. unfold stability_test. rewrite Hvalid. simpl.
  unfold bind at 1.
  assert (Htrials : fst (stability_trials model P T z s) = Raise e).
  { unfold stability_trials, bind.
    destruct Hev as [s|s f_feed s1 props s2 y s' Hfeed Hlen Hmix Hts].
    - destruct (model_fugacity model P T z s) as [r s1].
      simpl in Hraise. by subst r.
    - rewrite Hfeed. apply Nat.eqb_neq in Hlen. rewrite Hlen, Hmix.
      by eapply trials_evaluate_raise. }
  destruct (stability_trials model P T z s) as [r s1].
  simpl in Htrials. by subst r.
Qed.

Context `{!ReadOnlyEos}.

Lemma trial_evaluates_prefix model P T z lpf fuel Y (s s' : store) y :
  trial_evaluates model P T z lpf fuel Y s y s' -> s `prefix_of` s'.
Proof.
  induction 1 as [fuel Y s|fuel Y s f s1 y s' Hf _ _ IH]; [done|].
  etrans; [|exact IH].
  pose proof (grows_model_fugacity model P T (normalize Y) s) as Hg.
  by rewrite Hf in Hg.
Qed.

Lemma trials_evaluate_prefix model P T z lpf seeds (s s' : store) y :
  trials_evaluate model P T z lpf seeds s y s' -> s `prefix_of` s'.
Proof.
  induction 1 as [y0 rest s y s' Ht|y0 rest s t s1 y s' Ht _ IH].
  - by eapply trial_evaluates_prefix.
  - etrans; [|exact IH].
    pose proof (grows_iterate_trial model P T z lpf max_iterations y0 s) as Hg.
    by rewrite Ht in Hg.
Qed.

Lemma evaluates_prefix model P T z (s s' : store) y :
  evaluates model P T z s y s' -> s `prefix_of` s'.
Proof.
  destruct 1 as [s|s f_feed s1 props s2 y s' Hfeed _ Hmix Hts]; [done|].
  pose proof (grows_model_fugacity model P T z s) as Hg1.
  pose proof (grows_model_mixture model s1) as Hg2.
  rewrite Hfeed in Hg1. rewrite Hmix in Hg2. simpl in *.
  etrans; [exact Hg1|]. etrans; [exact Hg2|].
  by eapply trials_evaluate_prefix.
Qed.
End ErrorPropagation.

Section NoPhysicalRoot.
Context `{Thermo}.

(** Without a root above [B] at [(P, T, y)], every method of an adapter
    that needs the EOS there raises [NoPhysicalRootError]. *)
Lemma adapter_no_root (s : store) model pr m k c P T y :
  adapter_view s model = Some (pr, m, k) ->
  configuration_of_view (pr, m, k) = Return c ->
  (forall r, In r (cubic_roots c P T y) -> ~ eos_B c P T y < r) ->
  fst (@adapter_calculate_Z gibbs_ceos pr model P T y s) = Raise NoPhysicalRootError
  /\ fst (@adapter_fugacity gibbs_ceos pr model P T y s) = Raise NoPhysicalRootError
  /\ fst (@model_fugacity gibbs_ceos model P T y s) = Raise NoPhysicalRootError.
Proof.
  intros Hv Hc Hno.
  destruct (adapter_view_inv s model pr m k Hv) as (mx & bp & Hs & Hm & Hk).
  assert (HZ : fst (@adapter_calculate_Z gibbs_ceos pr model P T y s)
               = Raise NoPhysicalRootError).
  { destruct pr; simpl.
    - rewrite (@PR_calculate_Z_eq gibbs_ceos s model mx bp P T y Hs). simpl.
      by rewrite (ceos_Z_no_root _ _ _ c P T y
                    (eos_view_alloc_PR s mx bp m k Hm Hk) Hc Hno).
    - rewrite (@SRK_calculate_Z_eq gibbs_ceos s model mx bp P T y Hs). simpl.
      by rewrite (ceos_Z_no_root _ _ _ c P T y
                    (eos_view_alloc_SRK s mx bp m k Hm Hk) Hc Hno). }
  assert (Hf : fst (@adapter_fugacity gibbs_ceos pr model P T y s)
               = Raise NoPhysicalRootError).
  { destruct pr; simpl in *.
    - unfold NichitaPR.fugacity, bind at 1.
      destruct (@NichitaPR.calculate_Z gibbs_ceos model P T y s) as [r s1].
      simpl in HZ. by subst r.
    - unfold NichitaSRK.fugacity, bind at 1.
      destruct (@NichitaSRK.calculate_Z gibbs_ceos model P T y s) as [r s1].
      simpl in HZ. by subst r. }
  split; [exact HZ|]. split; [exact Hf|].
  unfold model_fugacity, bind, load. rewrite Hs. by destruct pr.
Qed.
End NoPhysicalRoot.

(** C7.  Let a stability test on a valid feed [z] evaluate the EOS at a
    composition [y]: the feed itself (of any number of components) or any
    iterate of any trial.  If no real root of the cubic at [(P, T, y)] is
    above [B], the EOS raises [NoPhysicalRootError] and returns no root,
    the exception passes unchanged through [calculate_Z] and [fugacity] of
    the adapter, and [stability_test] ends with that exception, not with a
    verdict. *)
Theorem no_physical_root_is_fatal `{Thermo} `{StabilitySettings}
    (s s' : store) model pr m k c P T z y :
  adapter_view s model = Some (pr, m, k) ->
  configuration_of_view (pr, m, k) = Return c ->
  valid_composition z = true ->
  @evaluates gibbs_ceos _ model P T z s y s' ->
  (forall r, In r (cubic_roots c P T y) -> ~ eos_B c P T y < r) ->
  (forall e (s0 : store), eos_view s0 e = Some (pr, m, k) ->
     ceos_calculate_Z_minimal_energy e P T y s0 = (Raise NoPhysicalRootError, s0))
  /\ fst (@adapter_calculate_Z gibbs_ceos pr model P T y s')
     = Raise NoPhysicalRootError
  /\ fst (@adapter_fugacity gibbs_ceos pr model P T y s')
     = Raise NoPhysicalRootError
  /\ fst (@stability_test gibbs_ceos _ model P T z s) = Raise NoPhysicalRootError
  /\ forall r, fst (@stability_test gibbs_ceos _ model P T z s) <> Return r.
Proof.
  intros Hv Hc Hvalid Hev Hno.
  assert (Hv' : adapter_view s' model = Some (pr, m, k)).
  { eapply adapter_view_prefix; [|exact Hv].
    eapply (@evaluates_prefix gibbs_ceos _ gibbs_ceos_read_only). exact Hev. }
  destruct (adapter_no_root s' model pr m k c P T y Hv' Hc Hno) as (HZ & Hf & Hmf).
  assert (Hst : fst (@stability_test gibbs_ceos _ model P T z s)
                = Raise NoPhysicalRootError).
  { eapply (@evaluates_raise gibbs_ceos); eauto. }
  split; [intros e s0 He; by eapply ceos_Z_no_root|].
  split; [exact HZ|]. split; [exact Hf|]. split; [exact Hst|].
  intros r Hr. rewrite Hst in Hr. discriminate Hr.
Qed.

Lemma no_physical_root_is_fatal_witness :
  fst (@NichitaSRK.calculate_Z sample_ceos 2%nat 1 1 [9 # 10; 1 # 10]
         sample_store_unlike) = Return (1 # 4)
  /\ fst (@stability_test sample_ceos sample_settings 2%nat 1 1 [9 # 10; 1 # 10]
            sample_store_unlike) = Raise NoPhysicalRootError
  /\ fst (@stability_test sample_ceos sample_settings 2%nat 6 1 [1]
            sample_store_single) = Raise NoPhysicalRootError.
Proof.
  split; [vm_compute; reflexivity|]. split.
  - refine (proj1 (proj2 (proj2 (proj2
      (@no_physical_root_is_fatal sample_thermo sample_settings
         sample_store_unlike _ 2%nat false
         (OMixture [9 # 10; 1 # 10] [1; 1] [12; 1] [0; 0])
         (OMatrix [[0; 0]; [0; 0]])
         (sample_variant, ([1; 1], [12; 1], [0; 0]), [[0; 0]; [0; 0]])
         1 1 [9 # 10; 1 # 10] _ eq_refl eq_refl eq_refl _ _))))).
    + eapply evaluates_in_trials;
        [vm_compute; reflexivity | discriminate | vm_compute; reflexivity |].
      apply in_this_trial.
      eapply evaluates_later; [vm_compute; reflexivity | vm_compute; reflexivity |].
      apply evaluates_now.
    + intros r Hin. vm_compute in Hin.
      destruct Hin as [<-|[<-|[<-|[]]]]; vm_compute; intros Hlt; discriminate Hlt.
  - refine (proj1 (proj2 (proj2 (proj2
      (@no_physical_root_is_fatal sample_thermo sample_settings
         sample_store_single _ 2%nat false
         (OMixture [1] [125 # 24] [125 # 2] [1 # 100])
         (OMatrix [[0]])
         (sample_variant, ([125 # 24], [125 # 2], [1 # 100]), [[0]])
         6 1 [1] _ eq_refl eq_refl eq_refl _ _))))).
    + apply evaluates_feed.
    + intros r Hin. vm_compute in Hin.
      destruct Hin as [<-|[<-|[<-|[]]]]; vm_compute; intros Hlt; discriminate Hlt.
Defined.

(** * A valid input has a physical root *)







Section ValidInput.
Context `{Thermo} `{!PhysicalThermo}.





End ValidInput.



